(** * searxng_mcp: the search gateway and the tool handler

    A shallow embedding of [searxng_mcp/searxng_client.py],
    [searxng_mcp/server.py], [searxng_mcp/models.py] and
    [searxng_mcp/config.py].

    Python values that reach the code from outside (the decoded JSON
    body, the tool arguments) are kept dynamically typed, as the code
    receives them.  Exceptions are an explicit outcome type, the
    outbound HTTP calls are an explicit trace, and the backend is a
    function from requests to transport outcomes.  A Python [str] is a
    [string], one [ascii] for each of its characters, and a Python
    [int] is a [Z].  Logging has no effect on any returned value and
    is left out, as is the [from e] cause chain of a re-raised
    exception. *)

From Stdlib Require Import ZArith List String Ascii Bool Lia DecimalString.
From Stdlib Require Import Floats.SpecFloat.
Import ListNotations.

Local Open Scope string_scope.
Local Open Scope Z_scope.

Set Implicit Arguments.

(* ================================================================== *)
(** ** Python values *)
(* ================================================================== *)

(** What [response.json()] can return, and what a [dict[str, Any]] of
    tool arguments can hold.  A dict is kept as its items in insertion
    order; [dict_get] finds the first binding of a key. *)
#[local] Unset Elimination Schemes.
Inductive pyval : Type :=
| PyNone
| PyBool (b : bool)
| PyInt (n : Z)
| PyFloat (f : spec_float)
| PyStr (s : string)
| PyList (l : list pyval)
| PyDict (d : list (string * pyval)).
#[local] Set Elimination Schemes.

Definition pydict := list (string * pyval).

Fixpoint dict_get (A : Type) (d : list (string * A)) (k : string) : option A :=
  match d with
  | [] => None
  | (k', v) :: d' => if String.eqb k' k then Some v else dict_get d' k
  end.

Definition dict_keys (A : Type) (d : list (string * A)) : list string :=
  map fst d.

(** [d.get(k, default)] *)
Definition dict_get_default (d : pydict) (k : string) (default : pyval) : pyval :=
  match dict_get d k with
  | Some v => v
  | None => default
  end.

(** Truth value testing, [bool(v)]. *)
Definition py_truthy (v : pyval) : bool :=
  match v with
  | PyNone => false
  | PyBool b => b
  | PyInt n => negb (n =? 0)
  | PyFloat (S754_zero _) => false
  | PyFloat _ => true
  | PyStr s => negb (String.eqb s "")
  | PyList l => match l with [] => false | _ => true end
  | PyDict d => match d with [] => false | _ => true end
  end.

(** [isinstance(v, int)]: [bool] is a subclass of [int]. *)
Definition isinstance_int (v : pyval) : option Z :=
  match v with
  | PyInt n => Some n
  | PyBool true => Some 1
  | PyBool false => Some 0
  | _ => None
  end.

(** [str(n)] for an integer. *)
Definition str_of_int (z : Z) : string :=
  NilZero.string_of_int (Z.to_int z).

(** [k in s] for two strings: substring test. *)
Fixpoint str_contains (k s : string) : bool :=
  String.prefix k s
  || match s with
     | EmptyString => false
     | String _ s' => str_contains k s'
     end.

(** The characters of a string, each as a string of length one. *)
Fixpoint str_chars (s : string) : list string :=
  match s with
  | EmptyString => []
  | String c s' => String c EmptyString :: str_chars s'
  end.

(** [s.rstrip("/")] *)
Fixpoint rstrip_slash (s : string) : string :=
  match s with
  | EmptyString => EmptyString
  | String c s' =>
      match rstrip_slash s' with
      | EmptyString => if Ascii.eqb c "/"%char then EmptyString
                       else String c EmptyString
      | r => String c r
      end
  end.

(** [s[:n]] for a non-negative [n] *)
Fixpoint str_take (n : nat) (s : string) : string :=
  match n, s with
  | O, _ => EmptyString
  | S _, EmptyString => EmptyString
  | S n', String c s' => String c (str_take n' s')
  end.

(** [sep.join(parts)] on strings *)
Definition str_join (sep : string) (parts : list string) : string :=
  String.concat sep parts.

(** What iterating over a value yields: the elements of a list, the
    keys of a dict, the characters of a string; nothing else that JSON
    can decode to is iterable. *)
Definition py_iter (v : pyval) : option (list pyval) :=
  match v with
  | PyList l => Some l
  | PyDict d => Some (map PyStr (dict_keys d))
  | PyStr s => Some (map PyStr (str_chars s))
  | _ => None
  end.

Definition py_is_str (k : string) (v : pyval) : bool :=
  match v with
  | PyStr s => String.eqb s k
  | _ => false
  end.

(** [k in v] for a string [k]: key of a dict, element of a list,
    substring of a string; [None] stands for the TypeError of the other
    types. *)
Definition py_in (k : string) (v : pyval) : option bool :=
  match v with
  | PyDict d => Some (match dict_get d k with Some _ => true | None => false end)
  | PyList l => Some (existsb (py_is_str k) l)
  | PyStr s => Some (str_contains k s)
  | _ => None
  end.

(* ================================================================== *)
(** ** Exceptions *)
(* ================================================================== *)

(** The exception classes of httpx (leaves of its hierarchy). *)
Inductive httpx_class : Type :=
| ConnectTimeout | ReadTimeout | WriteTimeout | PoolTimeout
| ConnectError | ReadError | WriteError | CloseError
| LocalProtocolError | RemoteProtocolError
| ProxyError | UnsupportedProtocol
| DecodingError | TooManyRedirects
| HTTPStatusError
| InvalidURL | CookieConflict | StreamError.

(** [isinstance(e, httpx.TimeoutException)] *)
Definition is_TimeoutException (c : httpx_class) : bool :=
  match c with
  | ConnectTimeout | ReadTimeout | WriteTimeout | PoolTimeout => true
  | _ => false
  end.

(** [isinstance(e, httpx.ConnectError)] *)
Definition is_ConnectError (c : httpx_class) : bool :=
  match c with
  | ConnectError => true
  | _ => false
  end.

(** [isinstance(e, httpx.HTTPError)]: every request error and
    HTTPStatusError; InvalidURL, CookieConflict and the stream errors
    are outside it. *)
Definition is_HTTPError (c : httpx_class) : bool :=
  match c with
  | InvalidURL | CookieConflict | StreamError => false
  | _ => true
  end.

Inductive exc_class : Type :=
| ValueError
| TypeError
| KeyError
| AttributeError
| ValidationError            (* pydantic *)
| SearXNGClientError
| SearXNGConnectionError
| SearXNGTimeoutError
| SearXNGResponseError
| Httpx (c : httpx_class)
| OtherException (name : string).

(** An exception instance: its class and [str(e)]. *)
Record exn : Type := Exn { exn_class : exc_class; exn_str : string }.

Inductive outcome (A : Type) : Type :=
| Return (a : A)
| Raise (e : exn).
Arguments Return {A} a.
Arguments Raise {A} e.

Definition bind (A B : Type) (m : outcome A) (f : A -> outcome B) : outcome B :=
  match m with
  | Return a => f a
  | Raise e => Raise e
  end.

Notation "x <- m ;; k" := (bind m (fun x => k))
  (at level 61, m at next level, right associativity).

(** [try: m  except Exception as e: raise h(e)] *)
Definition reraise (A : Type) (m : outcome A) (h : exn -> exn) : outcome A :=
  match m with
  | Return a => Return a
  | Raise e => Raise (h e)
  end.

(** Errors raised by the interpreter or by a library rather than by a
    [raise] of the source.  Their text is not fixed by the source. *)
Inductive runtime_error : Type :=
| JoinError (v : pyval)                     (* [",".join(v)] *)
| NotContainer (v : pyval)                  (* [k in v] *)
| NotIterable (v : pyval)                   (* [for x in v] *)
| BadSubscript (v : pyval) (k : string)     (* [v[k]] *)
| NoGetAttribute (v : pyval)                (* [v.get] *)
| InvalidModel (model : string) (fields : list (string * pyval))
| StatusError (status : Z) (url : string).  (* [raise_for_status()] *)

Definition runtime_class (r : runtime_error) : exc_class :=
  match r with
  | JoinError _ | NotContainer _ | NotIterable _ => TypeError
  | BadSubscript (PyDict _) _ => KeyError
  | BadSubscript _ _ => TypeError
  | NoGetAttribute _ => AttributeError
  | InvalidModel _ _ => ValidationError
  | StatusError _ _ => Httpx HTTPStatusError
  end.

(* ================================================================== *)
(** ** config.py and models.py *)
(* ================================================================== *)

Record Config : Type := {
  searxng_base_url : string;
  searxng_timeout : Z;
  log_level : string;
  max_results_limit : Z
}.

(** The [Field] constraints: [searxng_timeout] has [gt=0],
    [max_results_limit] has [gt=0, le=100]. *)
Definition config_valid (c : Config) : Prop :=
  0 < searxng_timeout c /\ 0 < max_results_limit c <= 100.

Definition default_config : Config := {|
  searxng_base_url := "http://localhost:8080";
  searxng_timeout := 10;
  log_level := "INFO";
  max_results_limit := 50
|}.

Record SearchResult : Type := {
  title : string;
  url : string;
  content : string;
  publishedDate : option string;
  engines : list string
}.

Record SearchResults : Type := {
  query : string;
  results : list SearchResult;
  number_of_results : Z
}.

(* ================================================================== *)
(** ** The backend, seen from the client *)
(* ================================================================== *)

(** An outbound [GET]: the URL, the [params] dict as handed to httpx,
    and the headers the client was created with. *)
Record request : Type := {
  req_url : string;
  req_params : pydict;
  req_headers : list (string * string)
}.

(** A response: its status code and what [response.json()] decodes
    ([None] when decoding raises). *)
Record response : Type := {
  status_code : Z;
  json : option pyval
}.

Inductive transport_outcome : Type :=
| Responded (r : response)
| Failed (e : exn).

(** What the code runs against: the answer to each outbound request,
    and the text the runtime gives to its own errors. *)
Record world : Type := {
  http_get : request -> transport_outcome;
  error_text : runtime_error -> string
}.

Definition runtime (w : world) (r : runtime_error) : exn :=
  Exn (runtime_class r) (error_text w r).

(** [response.raise_for_status()]: raises HTTPStatusError unless the
    status is a 2xx. *)
Definition raise_for_status (w : world) (u : string) (r : response)
  : outcome response :=
  if (200 <=? status_code r) && (status_code r <=? 299) then Return r
  else Raise (runtime w (StatusError (status_code r) u)).

(** [await client.get(u, params=...)] followed by
    [response.raise_for_status()]. *)
Definition get_and_check (w : world) (rq : request) : outcome response :=
  match http_get w rq with
  | Responded r => raise_for_status w (req_url rq) r
  | Failed e => Raise e
  end.

(* ================================================================== *)
(** ** searxng_client.py: class SearXNGClient *)
(* ================================================================== *)

Record SearXNGClient : Type := {
  base_url : string;
  timeout : Z;
  limit : Z;                          (* [self.max_results_limit] *)
  headers : list (string * string)
}.

(** [SearXNGClient.__init__] *)
Definition new_client (config : Config) : SearXNGClient := {|
  base_url := rstrip_slash (searxng_base_url config);
  timeout := searxng_timeout config;
  limit := max_results_limit config;
  headers := [("User-Agent", "searxng-mcp-server/1.0");
              ("Accept", "application/json")]
|}.

(** [d[k] = v] *)
Fixpoint dict_set (d : pydict) (k : string) (v : pyval) : pydict :=
  match d with
  | [] => [(k, v)]
  | (k', v') :: d' =>
      if String.eqb k' k then (k', v) :: d' else (k', v') :: dict_set d' k v
  end.

Fixpoint all_strs (l : list pyval) : option (list string) :=
  match l with
  | [] => Some []
  | PyStr s :: l' =>
      match all_strs l' with
      | Some ss => Some (s :: ss)
      | None => None
      end
  | _ :: _ => None
  end.

(** [sep.join(v)]: [v] must be iterable and yield strings only. *)
Definition py_join (w : world) (sep : string) (v : pyval) : outcome string :=
  match py_iter v with
  | None => Raise (runtime w (JoinError v))
  | Some items =>
      match all_strs items with
      | Some ss => Return (str_join sep ss)
      | None => Raise (runtime w (JoinError v))
      end
  end.

(** [v[k]] for a string key. *)
Definition py_getitem (w : world) (v : pyval) (k : string) : outcome pyval :=
  match v with
  | PyDict d =>
      match dict_get d k with
      | Some x => Return x
      | None => Raise (runtime w (BadSubscript v k))
      end
  | _ => Raise (runtime w (BadSubscript v k))
  end.

(** [v.get(k, default)] *)
Definition py_get (w : world) (v : pyval) (k : string) (default : pyval)
  : outcome pyval :=
  match v with
  | PyDict d => Return (dict_get_default d k default)
  | _ => Raise (runtime w (NoGetAttribute v))
  end.

(** [k in v], raising TypeError where [v] is no container. *)
Definition py_contains (w : world) (k : string) (v : pyval) : outcome bool :=
  match py_in k v with
  | Some b => Return b
  | None => Raise (runtime w (NotContainer v))
  end.

(** The [except] clauses of [health_check], in the order of the
    source: TimeoutException, ConnectError, HTTPError. *)
Definition health_check_handler (self : SearXNGClient) (e : exn) : exn :=
  match exn_class e with
  | Httpx c =>
      if is_TimeoutException c then
        Exn SearXNGTimeoutError
            ("SearXNG health check timed out after "
               ++ str_of_int (timeout self) ++ "s")
      else if is_ConnectError c then
        Exn SearXNGConnectionError
            ("Unable to connect to SearXNG at " ++ base_url self ++ ". "
               ++ "Please ensure SearXNG is running.")
      else if is_HTTPError c then
        Exn SearXNGConnectionError
            ("HTTP error while connecting to SearXNG: " ++ exn_str e)
      else e
  | _ => e
  end.

Definition health_check_request (self : SearXNGClient) : request := {|
  req_url := base_url self ++ "/search";
  req_params := [("q", PyStr "test"); ("format", PyStr "json")];
  req_headers := headers self
|}.

(** [SearXNGClient.health_check]: the requests issued, and the outcome. *)
Definition health_check (self : SearXNGClient) (w : world)
  : list request * outcome bool :=
  let rq := health_check_request self in
  ([rq],
   reraise (_ <- get_and_check w rq ;; Return true)
           (health_check_handler self)).

(** The [except] clauses around the call in [search]. *)
Definition search_handler (self : SearXNGClient) (e : exn) : exn :=
  match exn_class e with
  | Httpx c =>
      if is_TimeoutException c then
        Exn SearXNGTimeoutError
            ("Search request timed out after "
               ++ str_of_int (timeout self) ++ "s")
      else if is_ConnectError c then
        Exn SearXNGConnectionError
            ("Unable to connect to SearXNG at " ++ base_url self ++ ". "
               ++ "Please ensure SearXNG is running.")
      else if is_HTTPError c then
        Exn SearXNGConnectionError
            ("HTTP error while searching: " ++ exn_str e)
      else e
  | _ => e
  end.

(** Lines 138-151: the [params] dict. *)
Definition build_params (w : world)
  (query categories language time_range : pyval) : outcome pydict :=
  let params := [("q", query); ("format", PyStr "json")] in
  params <- (if py_truthy categories then
               joined <- py_join w "," categories ;;
               Return (dict_set params "categories" (PyStr joined))
             else Return params) ;;
  let params :=
    if py_truthy language then dict_set params "language" language
    else params in
  let params :=
    if py_truthy time_range then dict_set params "time_range" time_range
    else params in
  Return params.

Definition required_fields : list string := ["title"; "url"; "content"].

(** [all(k in result_data for k in ks)], stopping at the first miss. *)
Fixpoint all_in (w : world) (ks : list string) (result_data : pyval)
  : outcome bool :=
  match ks with
  | [] => Return true
  | k :: ks' =>
      b <- py_contains w k result_data ;;
      if b then all_in w ks' result_data else Return false
  end.

(** Validation of the fields of a pydantic model: [str],
    [Optional[str]] and [list[str]] take no other JSON value. *)
Definition as_str (v : pyval) : option string :=
  match v with
  | PyStr s => Some s
  | _ => None
  end.

Definition as_optional_str (v : pyval) : option (option string) :=
  match v with
  | PyNone => Some None
  | PyStr s => Some (Some s)
  | _ => None
  end.

Definition as_list_str (v : pyval) : option (list string) :=
  match v with
  | PyList l => all_strs l
  | _ => None
  end.

(** [SearchResult(title=.., url=.., content=.., publishedDate=..,
    engines=..)] *)
Definition make_SearchResult (w : world) (t u c p e : pyval)
  : outcome SearchResult :=
  match as_str t, as_str u, as_str c, as_optional_str p, as_list_str e with
  | Some t', Some u', Some c', Some p', Some e' =>
      Return {| title := t'; url := u'; content := c';
                publishedDate := p'; engines := e' |}
  | _, _, _, _, _ =>
      Raise (runtime w (InvalidModel "SearchResult"
                          [("title", t); ("url", u); ("content", c);
                           ("publishedDate", p); ("engines", e)]))
  end.

(** One turn of the loop of lines 199-212: [None] for a skipped
    element. *)
Definition parse_result (w : world) (result_data : pyval)
  : outcome (option SearchResult) :=
  ok <- all_in w required_fields result_data ;;
  if negb ok then Return None
  else
    t <- py_getitem w result_data "title" ;;
    u <- py_getitem w result_data "url" ;;
    c <- py_getitem w result_data "content" ;;
    p <- py_get w result_data "publishedDate" PyNone ;;
    e <- py_get w result_data "engines" (PyList []) ;;
    r <- make_SearchResult w t u c p e ;;
    Return (Some r).

(** The loop, with [results] as the list being appended to. *)
Fixpoint parse_loop (w : world) (items : list pyval)
  (results : list SearchResult) : outcome (list SearchResult) :=
  match items with
  | [] => Return results
  | result_data :: rest =>
      r <- parse_result w result_data ;;
      match r with
      | None => parse_loop w rest results
      | Some result => parse_loop w rest (results ++ [result])
      end
  end.

(** Lines 214-216: [results[:max_results]] when [max_results] is given
    and positive. *)
Definition limit_results (max_results : option Z)
  (results : list SearchResult) : list SearchResult :=
  match max_results with
  | Some n => if 0 <? n then firstn (Z.to_nat n) results else results
  | None => results
  end.

(** [SearchResults(query=.., results=.., number_of_results=..)] *)
Definition make_SearchResults (w : world) (q : pyval)
  (rs : list SearchResult) (n : Z) : outcome SearchResults :=
  match as_str q with
  | Some q' =>
      if 0 <=? n then
        Return {| query := q'; results := rs; number_of_results := n |}
      else Raise (runtime w (InvalidModel "SearchResults" [("query", q)]))
  | None => Raise (runtime w (InvalidModel "SearchResults" [("query", q)]))
  end.

(** Lines 198-212: the elements of [data["results"]] that are kept. *)
Definition accepted_results (w : world) (data : pyval)
  : outcome (list SearchResult) :=
  raw <- py_getitem w data "results" ;;
  items <- match py_iter raw with
           | Some l => Return l
           | None => Raise (runtime w (NotIterable raw))
           end ;;
  parse_loop w items [].

(** The [try] block of lines 197-231. *)
Definition parse_results (w : world) (max_results : option Z) (data : pyval)
  : outcome SearchResults :=
  reraise
    (results <- accepted_results w data ;;
     let results := limit_results max_results results in
     q <- py_getitem w data "query" ;;
     make_SearchResults w q results (Z.of_nat (List.length results)))
    (fun e => Exn SearXNGResponseError
                  ("Failed to parse SearXNG response: " ++ exn_str e)).

(** Lines 178-194: decoding, and the two required top-level fields. *)
Definition decode (w : world) (r : response) : outcome pyval :=
  data <- match json r with
          | Some d => Return d
          | None => Raise (Exn SearXNGResponseError
                               "SearXNG returned malformed JSON response")
          end ;;
  has_query <- py_contains w "query" data ;;
  if negb has_query then
    Raise (Exn SearXNGResponseError
               "Invalid SearXNG response: missing 'query' field")
  else
    has_results <- py_contains w "results" data ;;
    if negb has_results then
      Raise (Exn SearXNGResponseError
                 "Invalid SearXNG response: missing 'results' field")
    else Return data.

Definition search_request (self : SearXNGClient) (params : pydict) : request :=
  {| req_url := base_url self ++ "/search";
     req_params := params;
     req_headers := headers self |}.

(** Lines 138-231 of [search]: what follows the limit check. *)
Definition search_call (self : SearXNGClient) (w : world)
  (query : pyval) (max_results : option Z)
  (categories language time_range : pyval)
  : list request * outcome SearchResults :=
  match build_params w query categories language time_range with
  | Raise e => ([], Raise e)
  | Return params =>
      let rq := search_request self params in
      ([rq],
       r <- reraise (get_and_check w rq) (search_handler self) ;;
       data <- decode w r ;;
       parse_results w max_results data)
  end.

(** [SearXNGClient.search]: the requests issued, and the outcome.
    Lines 132-136 come first: [max_results is not None and
    max_results > self.max_results_limit]. *)
Definition search (self : SearXNGClient) (w : world)
  (query : pyval) (max_results : option Z)
  (categories language time_range : pyval)
  : list request * outcome SearchResults :=
  match max_results with
  | Some n =>
      if limit self <? n then
        ([], Raise (Exn ValueError
                        ("max_results (" ++ str_of_int n
                           ++ ") exceeds the configured limit of "
                           ++ str_of_int (limit self))))
      else search_call self w query max_results categories language time_range
  | None => search_call self w query max_results categories language time_range
  end.

(* ================================================================== *)
(** ** server.py: class SearXNGMCPServer *)
(* ================================================================== *)

Record TextContent : Type := { type : string; text : string }.

(** The server: its configuration and the lazily created client. *)
Record SearXNGMCPServer : Type := {
  config : Config;
  client : option SearXNGClient
}.

(** [SearXNGMCPServer.__init__] *)
Definition new_server (c : Config) : SearXNGMCPServer :=
  {| config := c; client := None |}.

(** What a tool call does besides returning: delegations to the
    client's [search], and the requests that go out. *)
Inductive event : Type :=
| Delegated (query : pyval) (max_results : option Z)
            (categories language time_range : pyval)
| Requested (rq : request).

(** The content line of a result: [content[:300]], with ["..."] added
    when [len(content) > 300]. *)
Definition content_text (c : string) : string :=
  let t := str_take 300 c in
  if (300 <? String.length c)%nat then t ++ "..." else t.

Definition opt_truthy (o : option string) : bool :=
  match o with
  | Some s => negb (String.eqb s "")
  | None => false
  end.

(** [lines.append(line)] *)
Definition append (lines : list string) (line : string) : list string :=
  List.app lines [line].

(** The body of the loop of [_format_search_results]: the lines
    appended for the result numbered [i]. *)
Definition append_result (lines : list string) (i : Z) (result : SearchResult)
  : list string :=
  let lines := append lines (str_of_int i ++ ". " ++ title result) in
  let lines := append lines ("   URL: " ++ url result) in
  let lines :=
    if negb (String.eqb (content result) "") then
      append lines ("   " ++ content_text (content result))
    else lines in
  let lines :=
    if opt_truthy (publishedDate result) then
      append lines ("   Published: "
                      ++ match publishedDate result with
                         | Some d => d
                         | None => ""
                         end)
    else lines in
  let lines :=
    match engines result with
    | [] => lines
    | es => append lines ("   Sources: " ++ str_join ", " es)
    end in
  append lines "".

(** [for i, result in enumerate(rs, i): ...] *)
Fixpoint format_loop (lines : list string) (i : Z) (rs : list SearchResult)
  : list string :=
  match rs with
  | [] => lines
  | result :: rest => format_loop (append_result lines i result) (i + 1) rest
  end.

Definition newline : string := String (ascii_of_nat 10) EmptyString.

(** [SearXNGMCPServer._format_search_results] *)
Definition _format_search_results (rs : SearchResults) : string :=
  match results rs with
  | [] => "No results found for query: " ++ query rs
  | _ =>
      let lines :=
        ["Search results for: " ++ query rs;
         "Found " ++ str_of_int (number_of_results rs) ++ " results" ++ newline] in
      str_join newline (format_loop lines 1 (results rs))
  end.

(** The [except] clauses of [_handle_web_search], in the order of the
    source.  Each of them raises ValueError. *)
Definition web_search_handler (self : SearXNGMCPServer) (e : exn) : exn :=
  match exn_class e with
  | SearXNGConnectionError =>
      Exn ValueError
          ("Failed to connect to SearXNG: " ++ exn_str e ++ newline ++ newline
             ++ "Please ensure SearXNG is running at "
             ++ searxng_base_url (config self))
  | SearXNGTimeoutError =>
      Exn ValueError ("Search request timed out: " ++ exn_str e)
  | SearXNGResponseError =>
      Exn ValueError ("Invalid response from SearXNG: " ++ exn_str e)
  | SearXNGClientError =>
      Exn ValueError ("SearXNG client error: " ++ exn_str e)
  | _ =>
      Exn ValueError ("Unexpected error during search: " ++ exn_str e)
  end.

(** [SearXNGMCPServer._handle_web_search]: the server afterwards, what
    happened, and the outcome.

    [max_results] has passed [isinstance(max_results, int)] when it
    reaches [search], which only compares it and slices with it; there
    [True] and [False] act as 1 and 0, the value [isinstance_int]
    gives them. *)
Definition _handle_web_search (self : SearXNGMCPServer) (w : world)
  (arguments : pydict)
  : SearXNGMCPServer * list event * outcome (list TextContent) :=
  let query := dict_get_default arguments "query" PyNone in
  if negb (py_truthy query) then
    (self, [], Raise (Exn ValueError "'query' parameter is required"))
  else
    let max_results := dict_get_default arguments "max_results" (PyInt 10) in
    let categories := dict_get_default arguments "categories" PyNone in
    let language := dict_get_default arguments "language" PyNone in
    let time_range := dict_get_default arguments "time_range" PyNone in
    match isinstance_int max_results with
    | None =>
        (self, [],
         Raise (Exn ValueError "'max_results' must be a positive integer"))
    | Some n =>
        if n <? 1 then
          (self, [],
           Raise (Exn ValueError "'max_results' must be a positive integer"))
        else if max_results_limit (config self) <? n then
          (self, [],
           Raise (Exn ValueError
                      ("'max_results' exceeds limit of "
                         ++ str_of_int (max_results_limit (config self)))))
        else
          let c := match client self with
                   | Some c => c
                   | None => new_client (config self)
                   end in
          let self := {| config := config self; client := Some c |} in
          let (requests, found) :=
            search c w query (Some n) categories language time_range in
          (self,
           Delegated query (Some n) categories language time_range
             :: map Requested requests,
           reraise
             (rs <- found ;;
              Return [{| type := "text"; text := _format_search_results rs |}])
             (web_search_handler self))
    end.

(** The [call_tool] handler registered by [_register_handlers]. *)
Definition call_tool (self : SearXNGMCPServer) (w : world)
  (name : string) (arguments : pydict)
  : SearXNGMCPServer * list event * outcome (list TextContent) :=
  if negb (String.eqb name "web_search") then
    (self, [], Raise (Exn ValueError ("Unknown tool: " ++ name)))
  else _handle_web_search self w arguments.

(* ================================================================== *)
(** ** The vocabulary of the specification *)
(* ================================================================== *)

(** The failure kinds of the specification.  The client raises
    ValueError for an argument out of contract and has three classes of
    its own below the base class SearXNGClientError, which it never
    raises itself. *)
Inductive failure_kind : Type :=
| InvalidArgument
| ConnectionFailure
| TimeoutFailure
| TransportFailure
| MalformedResponse.

Definition kind_of (c : exc_class) : option failure_kind :=
  match c with
  | ValueError => Some InvalidArgument
  | SearXNGConnectionError => Some ConnectionFailure
  | SearXNGTimeoutError => Some TimeoutFailure
  | SearXNGResponseError => Some MalformedResponse
  | SearXNGClientError => Some TransportFailure
  | _ => None
  end.

(** The kind of the failure an outcome carries, if it is one. *)
Definition raised_kind (A : Type) (o : outcome A) : option failure_kind :=
  match o with
  | Raise e => kind_of (exn_class e)
  | Return _ => None
  end.

(** A positive integer, as Python reads the words: [True] is the
    integer 1 and [False] the integer 0. *)
Definition is_positive_integer (v : pyval) : bool :=
  match v with
  | PyInt n => 1 <=? n
  | PyBool b => b
  | _ => false
  end.

(** An element of the results array has a field when it is an object
    that binds the key. *)
Definition has_field (element : pyval) (k : string) : bool :=
  match element with
  | PyDict d => match dict_get d k with Some _ => true | None => false end
  | _ => false
  end.

Definition has_required_fields (element : pyval) : bool :=
  has_field element "title" && has_field element "url"
  && has_field element "content".

Definition is_object (element : pyval) : Prop :=
  exists d, element = PyDict d.

(** [published_date] from the optional field: null when absent. *)
Inductive published_from : option pyval -> option string -> Prop :=
| published_absent : published_from None None
| published_null : published_from (Some PyNone) None
| published_given s : published_from (Some (PyStr s)) (Some s).

(** [engines] from the optional field: empty when absent. *)
Inductive engines_from : option pyval -> list string -> Prop :=
| engines_absent : engines_from None []
| engines_given names : engines_from (Some (PyList (map PyStr names))) names.

(** What becomes of one element: it is left out when it lacks a
    required field, and otherwise becomes a result with the three
    required fields and the two optional ones. *)
Inductive element_outcome : pyval -> option SearchResult -> Prop :=
| element_skipped element :
    has_required_fields element = false ->
    element_outcome element None
| element_kept d t u c p e :
    dict_get d "title" = Some (PyStr t) ->
    dict_get d "url" = Some (PyStr u) ->
    dict_get d "content" = Some (PyStr c) ->
    published_from (dict_get d "publishedDate") p ->
    engines_from (dict_get d "engines") e ->
    element_outcome (PyDict d)
      (Some {| title := t; url := u; content := c;
               publishedDate := p; engines := e |}).

(** The results among a sequence of element outcomes, in order. *)
Fixpoint kept (outcomes : list (option SearchResult)) : list SearchResult :=
  match outcomes with
  | [] => []
  | Some r :: rest => r :: kept rest
  | None :: rest => kept rest
  end.

(** [enumerate(l, i)] *)
Fixpoint enumerate (A : Type) (i : Z) (l : list A) : list (Z * A) :=
  match l with
  | [] => []
  | x :: l' => (i, x) :: enumerate (i + 1) l'
  end.

(** The text of a content line as the specification has it: the
    content unchanged up to 300 characters, and beyond that its first
    300 characters and an ellipsis. *)
Definition claimed_content_text (c : string) : string :=
  if (String.length c <=? 300)%nat then c
  else (str_take 300 c ++ "...")%string.

Definition published_line (r : SearchResult) : list string :=
  match publishedDate r with
  | Some d => [("   Published: " ++ d)%string]
  | None => []
  end.

Definition sources_line (r : SearchResult) : list string :=
  match engines r with
  | [] => []
  | es => [("   Sources: " ++ str_join ", " es)%string]
  end.

(** The lines of the result numbered [i] as the specification has
    them: title, URL, content, then the two optional lines and the
    blank separator. *)
Definition claimed_result_lines (i : Z) (r : SearchResult) : list string :=
  ([(str_of_int i ++ ". " ++ title r)%string;
    ("   URL: " ++ url r)%string;
    ("   " ++ claimed_content_text (content r))%string]
   ++ published_line r ++ sources_line r ++ [""%string])%list.

(** The lines of a result as the formatter has them: the content line
    only for a content that is not empty, the date line only for a
    date that is there and not empty. *)
Definition rendered_result_lines (i : Z) (r : SearchResult) : list string :=
  ([(str_of_int i ++ ". " ++ title r)%string;
    ("   URL: " ++ url r)%string]
   ++ (if String.eqb (content r) "" then []
       else [("   " ++ claimed_content_text (content r))%string])
   ++ (if opt_truthy (publishedDate r) then published_line r else [])
   ++ sources_line r ++ [""%string])%list.

Definition header_lines (rs : SearchResults) : list string :=
  [("Search results for: " ++ query rs)%string;
   ("Found " ++ str_of_int (number_of_results rs) ++ " results" ++ newline)%string].

(** The text made of the header and of the lines of each result, in
    the order of the sequence and numbered from 1. *)
Definition format_with (result_lines : Z -> SearchResult -> list string)
  (rs : SearchResults) : string :=
  str_join newline
    (header_lines rs
     ++ flat_map (fun p => result_lines (fst p) (snd p))
          (enumerate 1 (results rs)))%list.

Definition claimed_format : SearchResults -> string :=
  format_with claimed_result_lines.

Definition rendered_format : SearchResults -> string :=
  format_with rendered_result_lines.

(** A result with nothing to show under its address. *)
Definition bare_result : SearchResult :=
  {| title := "The Book"; url := "https://doc.rust-lang.org/book";
     content := ""; publishedDate := None; engines := [] |}.

Definition bare_results : SearchResults :=
  {| query := "rust"; results := [bare_result]; number_of_results := 1 |}.

(** A run of [k] slashes. *)
Fixpoint slashes (k : nat) : string :=
  match k with
  | O => EmptyString
  | S k' => String "/"%char (slashes k')
  end.

(** The keys a request may carry. *)
Definition parameter_names : list string :=
  ["q"; "format"; "categories"; "language"; "time_range"].

(** A configuration whose base URL ends with a slash. *)
Definition slashed_config : Config := {|
  searxng_base_url := "http://searx.local/";
  searxng_timeout := 10;
  log_level := "INFO";
  max_results_limit := 50
|}.

(** The gateway a call uses: the client the server holds, or a new
    one. *)
Definition gateway_of (self : SearXNGMCPServer) : SearXNGClient :=
  match client self with
  | Some c => c
  | None => new_client (config self)
  end.

(** A backend that answers every request the same way. *)
Definition constant_world (o : transport_outcome) : world :=
  {| http_get := fun _ => o; error_text := fun _ => "runtime error" |}.

Definition answering (body : pyval) : world :=
  constant_world (Responded {| status_code := 200; json := Some body |}).

(** A response body with three elements, the second of which has no
    [url] and no [content]. *)
Definition example_body : pyval :=
  PyDict
    [("query", PyStr "rust programming");
     ("results",
      PyList
        [PyDict [("title", PyStr "Rust");
                 ("url", PyStr "https://rust-lang.org");
                 ("content", PyStr "A systems language");
                 ("engines", PyList [PyStr "duckduckgo"])];
         PyDict [("title", PyStr "No address")];
         PyDict [("title", PyStr "The Book");
                 ("url", PyStr "https://doc.rust-lang.org/book");
                 ("content", PyStr "");
                 ("publishedDate", PyStr "2018-06-26")]])].

Definition example_results : list SearchResult :=
  [{| title := "Rust"; url := "https://rust-lang.org";
      content := "A systems language"; publishedDate := None;
      engines := ["duckduckgo"] |};
   {| title := "The Book"; url := "https://doc.rust-lang.org/book";
      content := ""; publishedDate := Some "2018-06-26"; engines := [] |}].

(* ================================================================== *)
(** ** server.py: the advertised tool *)
(* ================================================================== *)

Record Tool : Type := {
  name : string;
  description : string;
  inputSchema : pyval
}.

(** The [list_tools] handler registered by [_register_handlers]. *)
Definition list_tools (self : SearXNGMCPServer) : list Tool :=
  [{| name := "web_search";
      description :=
        "Search the web using SearXNG, a privacy-focused metasearch engine. "
        ++ "Returns relevant search results including titles, URLs, and content snippets. "
        ++ "Supports filtering by language, categories, and time range.";
      inputSchema :=
        PyDict
          [("type", PyStr "object");
           ("properties",
            PyDict
              [("query",
                PyDict [("type", PyStr "string");
                        ("description", PyStr "The search query to execute")]);
               ("max_results",
                PyDict [("type", PyStr "integer");
                        ("description",
                         PyStr "Maximum number of results to return (default: 10)");
                        ("default", PyInt 10);
                        ("minimum", PyInt 1);
                        ("maximum", PyInt (max_results_limit (config self)))]);
               ("categories",
                PyDict [("type", PyStr "array");
                        ("description",
                         PyStr "SearXNG categories to search (e.g., general, news, images, videos, files, science)");
                        ("items", PyDict [("type", PyStr "string")])]);
               ("language",
                PyDict [("type", PyStr "string");
                        ("description",
                         PyStr "ISO 639-1 language code (e.g., 'en', 'de', 'fr')")]);
               ("time_range",
                PyDict [("type", PyStr "string");
                        ("description", PyStr "Filter results by time range");
                        ("enum", PyList [PyStr "day"; PyStr "week";
                                         PyStr "month"; PyStr "year"])])]);
           ("required", PyList [PyStr "query"])] |}].

(** [v[k]] where it is defined. *)
Definition py_lookup (v : pyval) (k : string) : option pyval :=
  match v with
  | PyDict d => dict_get d k
  | _ => None
  end.

(** [schema["properties"][property][key]] *)
Definition schema_property (schema : pyval) (property key : string)
  : option pyval :=
  match py_lookup schema "properties" with
  | Some ps =>
      match py_lookup ps property with
      | Some p => py_lookup p key
      | None => None
      end
  | None => None
  end.

(** The events of a call, and its outcome. *)
Definition events_of (A : Type)
  (run : SearXNGMCPServer * list event * outcome A) : list event :=
  snd (fst run).

Definition outcome_of (A : Type)
  (run : SearXNGMCPServer * list event * outcome A) : outcome A :=
  snd run.

Definition server_of (A : Type)
  (run : SearXNGMCPServer * list event * outcome A) : SearXNGMCPServer :=
  fst (fst run).

(** The client a server holds, if any, is the one its configuration
    gives: the state [_handle_web_search] leaves a new server in. *)
Definition client_from_config (self : SearXNGMCPServer) : Prop :=
  match client self with
  | Some c => c = new_client (config self)
  | None => True
  end.

(** A [categories] argument of the advertised type: absent, or a list
    of strings. *)
Definition categories_typed (v : pyval) : Prop :=
  v = PyNone \/ exists names, v = PyList (map PyStr names).

(** A transport error that no [except] clause of the client names:
    anything that is not an [httpx.HTTPError]. *)
Definition outside_HTTPError (e : exn) : bool :=
  match exn_class e with
  | Httpx c => negb (is_HTTPError c)
  | _ => true
  end.

(** A 2xx status. *)
Definition is_success (r : response) : bool :=
  (200 <=? status_code r) && (status_code r <=? 299).

(** A body none of whose elements has all the required fields. *)
Definition sparse_body : pyval :=
  PyDict
    [("query", PyStr "rust");
     ("results",
      PyList [PyDict [("title", PyStr "No address")];
              PyDict [("url", PyStr "https://rust-lang.org")]])].

(** A configuration whose limit is below the default [max_results]. *)
Definition tight_config : Config := {|
  searxng_base_url := "http://localhost:8080";
  searxng_timeout := 10;
  log_level := "INFO";
  max_results_limit := 5
|}.

(** An element that has the three required fields, the content
    being null. *)
Definition null_content_element : pyval :=
  PyDict [("title", PyStr "Rust"); ("url", PyStr "https://rust-lang.org");
          ("content", PyNone)].

(** A body whose only element is that one, and a body whose first
    element is a number. *)
Definition null_content_body : pyval :=
  PyDict [("query", PyStr "rust");
          ("results", PyList [null_content_element])].

Definition number_element_body : pyval :=
  PyDict [("query", PyStr "rust");
          ("results",
           PyList [PyInt 5;
                   PyDict [("title", PyStr "Rust");
                           ("url", PyStr "https://rust-lang.org");
                           ("content", PyStr "A systems language")]])].

(* ================================================================== *)
(** ** Inversion of the outcome monad *)
(* ================================================================== *)

Lemma bind_Return (A B : Type) (m : outcome A) (f : A -> outcome B) (b : B) :
  bind m f = Return b -> exists a, m = Return a /\ f a = Return b.
Proof.
  destruct m as [a | e]; simpl; intros H.
  - exists a; split; [reflexivity | exact H].
  - discriminate H.
Qed.

Lemma reraise_Return (A : Type) (m : outcome A) (h : exn -> exn) (a : A) :
  reraise m h = Return a -> m = Return a.
Proof.
  destruct m; simpl; intros H; [exact H | discriminate H].
Qed.

Lemma reraise_Raise (A : Type) (m : outcome A) (h : exn -> exn) (e : exn) :
  reraise m h = Raise e -> exists e0, m = Raise e0 /\ e = h e0.
Proof.
  destruct m as [a | e0]; simpl; intros H; [discriminate H |].
  exists e0; split; [reflexivity | congruence].
Qed.

(* ================================================================== *)
(** ** [search]: what a returned result set looks like *)
(* ================================================================== *)

Lemma make_SearchResults_Return w q rs n r :
  make_SearchResults w q rs n = Return r ->
  exists q', q = PyStr q' /\ 0 <= n /\
             r = {| query := q'; results := rs; number_of_results := n |}.
Proof.
  unfold make_SearchResults.
  destruct q; simpl; try discriminate.
  destruct (0 <=? n) eqn:Hn; [| discriminate].
  intros H; injection H as <-.
  exists s; repeat split; lia.
Qed.

Lemma parse_results_Return w mr data rs :
  parse_results w mr data = Return rs ->
  exists accepted q,
    accepted_results w data = Return accepted /\
    py_getitem w data "query" = Return (PyStr q) /\
    rs = {| query := q;
            results := limit_results mr accepted;
            number_of_results :=
              Z.of_nat (List.length (limit_results mr accepted)) |}.
Proof.
  unfold parse_results; intros H.
  apply reraise_Return in H.
  apply bind_Return in H; destruct H as (accepted & Hacc & H).
  apply bind_Return in H; destruct H as (q & Hq & H).
  apply make_SearchResults_Return in H; destruct H as (q' & -> & _ & ->).
  exists accepted, q'; auto.
Qed.

Lemma search_call_Return self w q mr c l t trace rs :
  search_call self w q mr c l t = (trace, Return rs) ->
  exists params r data,
    build_params w q c l t = Return params /\
    trace = [search_request self params] /\
    http_get w (search_request self params) = Responded r /\
    json r = Some data /\
    parse_results w mr data = Return rs.
Proof.
  unfold search_call.
  destruct (build_params w q c l t) as [params | e]; [| discriminate].
  intros H; injection H as <- H.
  apply bind_Return in H; destruct H as (r & Hr & H).
  apply bind_Return in H; destruct H as (data & Hdata & H).
  apply reraise_Return in Hr.
  unfold get_and_check in Hr.
  destruct (http_get w (search_request self params)) as [r0 | e0] eqn:Hget;
    [| discriminate].
  unfold raise_for_status in Hr.
  destruct ((200 <=? status_code r0) && (status_code r0 <=? 299));
    [| discriminate].
  injection Hr as ->.
  unfold decode in Hdata.
  apply bind_Return in Hdata; destruct Hdata as (d & Hd & Hdata).
  destruct (json r) as [d0 |] eqn:Hjson; [| discriminate].
  injection Hd as ->.
  apply bind_Return in Hdata; destruct Hdata as (hq & _ & Hdata).
  destruct (negb hq); [discriminate |].
  apply bind_Return in Hdata; destruct Hdata as (hr & _ & Hdata).
  destruct (negb hr); [discriminate |].
  injection Hdata as ->.
  exists params, r, data; auto.
Qed.

Lemma search_Return self w q mr c l t trace rs :
  search self w q mr c l t = (trace, Return rs) ->
  search_call self w q mr c l t = (trace, Return rs).
Proof.
  unfold search.
  destruct mr as [n |]; [| auto].
  destruct (limit self <? n); [discriminate | auto].
Qed.

Lemma limit_results_prefix mr (l : list SearchResult) :
  exists rest, l = (limit_results mr l ++ rest)%list.
Proof.
  unfold limit_results.
  destruct mr as [n |].
  - destruct (0 <? n).
    + exists (skipn (Z.to_nat n) l). symmetry. apply firstn_skipn.
    + exists []. symmetry. apply app_nil_r.
  - exists []. symmetry. apply app_nil_r.
Qed.

Lemma limit_results_positive n (l : list SearchResult) :
  0 < n ->
  limit_results (Some n) l = firstn (Z.to_nat n) l /\
  Z.of_nat (List.length (limit_results (Some n) l)) <= n.
Proof.
  intros Hn. unfold limit_results.
  destruct (0 <? n) eqn:E; [| lia].
  split; [reflexivity |].
  pose proof (firstn_le_length (Z.to_nat n) l). lia.
Qed.

(** What [search] returns: the accepted elements of the decoded body,
    limited, with their number. *)
Lemma search_result_set self w q mr c l t trace rs :
  search self w q mr c l t = (trace, Return rs) ->
  exists rq r data accepted,
    trace = [rq] /\
    http_get w rq = Responded r /\ json r = Some data /\
    accepted_results w data = Return accepted /\
    rs = {| query := query rs;
            results := limit_results mr accepted;
            number_of_results :=
              Z.of_nat (List.length (limit_results mr accepted)) |}.
Proof.
  intros H.
  apply search_Return in H.
  apply search_call_Return in H.
  destruct H as (params & r & data & _ & -> & Hget & Hjson & H).
  apply parse_results_Return in H.
  destruct H as (accepted & q' & Hacc & _ & ->).
  exists (search_request self params), r, data, accepted; simpl.
  repeat split; auto.
Qed.

(** C1. Whenever [search] returns a result set, the body of the
    response decoded to some [data] whose kept elements are
    [accepted]; the returned [results] are [accepted], cut to its first
    [max_results] elements when [max_results] is given and positive;
    [number_of_results] is the length of what is returned, which is a
    prefix of [accepted] and, when cut, no longer than [max_results]. *)
Theorem search_count_is_length_after_truncation :
  forall self w q mr c l t trace rs,
    search self w q mr c l t = (trace, Return rs) ->
    exists rq r data accepted,
      trace = [rq] /\
      http_get w rq = Responded r /\ json r = Some data /\
      accepted_results w data = Return accepted /\
      number_of_results rs = Z.of_nat (List.length (results rs)) /\
      (forall n, mr = Some n -> 0 < n ->
         results rs = firstn (Z.to_nat n) accepted /\
         Z.of_nat (List.length (results rs)) <= n) /\
      ((mr = None \/ exists n, mr = Some n /\ n <= 0) ->
         results rs = accepted) /\
      (exists rest, accepted = (results rs ++ rest)%list).
Proof.
  intros self w q mr c l t trace rs H.
  destruct (search_result_set _ _ _ _ _ _ _ H)
    as (rq & r & data & accepted & Htrace & Hget & Hjson & Hacc & Hrs).
  exists rq, r, data, accepted.
  rewrite Hrs; cbn [results number_of_results].
  repeat split; auto.
  - subst mr. apply limit_results_positive; assumption.
  - subst mr. apply limit_results_positive; assumption.
  - intros [-> | (n & -> & Hn)]; simpl; [reflexivity |].
    destruct (0 <? n) eqn:E; [lia | reflexivity].
  - apply limit_results_prefix.
Qed.

Lemma search_count_is_length_after_truncation_witness :
  exists rq r data accepted,
    [search_request (new_client default_config)
       [("q", PyStr "rust"); ("format", PyStr "json")]] = [rq] /\
    http_get (answering example_body) rq = Responded r /\
    json r = Some data /\
    accepted_results (answering example_body) data = Return accepted /\
    1 = Z.of_nat (List.length (firstn 1 example_results)) /\
    (forall n, Some 1 = Some n -> 0 < n ->
       firstn 1 example_results = firstn (Z.to_nat n) accepted /\
       Z.of_nat (List.length (firstn 1 example_results)) <= n) /\
    ((Some 1 = None \/ exists n, Some 1 = Some n /\ n <= 0) ->
       firstn 1 example_results = accepted) /\
    (exists rest, accepted = (firstn 1 example_results ++ rest)%list).
Proof.
  exact (search_count_is_length_after_truncation
           (new_client default_config) (answering example_body)
           (PyStr "rust") (Some 1) PyNone PyNone PyNone eq_refl).
Defined.

(** C2. When [max_results] is given and exceeds the client's limit,
    [search] raises ValueError and no request has gone out. *)
Theorem search_over_limit_fails_before_network :
  forall self w q n c l t,
    limit self < n ->
    exists msg,
      search self w q (Some n) c l t = ([], Raise (Exn ValueError msg)).
Proof.
  intros self w q n c l t Hn.
  unfold search.
  destruct (limit self <? n) eqn:E; [| lia].
  eexists; reflexivity.
Qed.

Lemma search_over_limit_fails_before_network_witness :
  limit (new_client default_config) < 51 /\
  exists msg,
    search (new_client default_config) (answering example_body)
      (PyStr "rust") (Some 51) PyNone PyNone PyNone
    = ([], Raise (Exn ValueError msg)).
Proof.
  split; [reflexivity |].
  apply (search_over_limit_fails_before_network
           (new_client default_config) (answering example_body)
           (PyStr "rust") PyNone PyNone PyNone).
  reflexivity.
Defined.

(* ================================================================== *)
(** ** Transport errors *)
(* ================================================================== *)

Lemma search_sent self w q mr c l t rq :
  fst (search self w q mr c l t) = [rq] ->
  snd (search self w q mr c l t) =
    (r <- reraise (get_and_check w rq) (search_handler self) ;;
     data <- decode w r ;;
     parse_results w mr data).
Proof.
  unfold search, search_call.
  destruct mr as [n |].
  - destruct (limit self <? n); [discriminate |].
    destruct (build_params w q c l t); [| discriminate].
    simpl. intros H; injection H as <-. reflexivity.
  - destruct (build_params w q c l t); [| discriminate].
    simpl. intros H; injection H as <-. reflexivity.
Qed.

Lemma health_check_handler_kind self c m :
  is_HTTPError c = true ->
  kind_of (exn_class (health_check_handler self (Exn (Httpx c) m))) =
    Some (if is_TimeoutException c then TimeoutFailure else ConnectionFailure).
Proof.
  intros H. unfold health_check_handler; simpl.
  destruct (is_TimeoutException c); [reflexivity |].
  destruct (is_ConnectError c); [reflexivity |].
  rewrite H. reflexivity.
Qed.

Lemma search_handler_kind self c m :
  is_HTTPError c = true ->
  kind_of (exn_class (search_handler self (Exn (Httpx c) m))) =
    Some (if is_TimeoutException c then TimeoutFailure else ConnectionFailure).
Proof.
  intros H. unfold search_handler; simpl.
  destruct (is_TimeoutException c); [reflexivity |].
  destruct (is_ConnectError c); [reflexivity |].
  rewrite H. reflexivity.
Qed.

Lemma get_and_check_bad_status w rq r :
  http_get w rq = Responded r ->
  (status_code r < 200 \/ 299 < status_code r) ->
  get_and_check w rq =
    Raise (Exn (Httpx HTTPStatusError)
               (error_text w (StatusError (status_code r) (req_url rq)))).
Proof.
  intros Hget Hst. unfold get_and_check, raise_for_status. rewrite Hget.
  destruct ((200 <=? status_code r) && (status_code r <=? 299)) eqn:E.
  - apply andb_true_iff in E. lia.
  - reflexivity.
Qed.

(** C3, as the code has it.  In [health_check] and in [search] alike,
    an httpx error of the transport that is an HTTPError becomes
    SearXNGTimeoutError exactly when it is a TimeoutException, and
    SearXNGConnectionError in every other case: a ConnectError, any
    other request error, and the HTTPStatusError of a response whose
    status is not 2xx.  No further kind is raised for them. *)
Theorem transport_errors_become_timeout_or_connection :
  forall self w,
    (forall c m,
       http_get w (health_check_request self) = Failed (Exn (Httpx c) m) ->
       is_HTTPError c = true ->
       raised_kind (snd (health_check self w)) =
         Some (if is_TimeoutException c then TimeoutFailure
               else ConnectionFailure)) /\
    (forall r,
       http_get w (health_check_request self) = Responded r ->
       (status_code r < 200 \/ 299 < status_code r) ->
       raised_kind (snd (health_check self w)) = Some ConnectionFailure) /\
    (forall q mr cs l t rq c m,
       fst (search self w q mr cs l t) = [rq] ->
       http_get w rq = Failed (Exn (Httpx c) m) ->
       is_HTTPError c = true ->
       raised_kind (snd (search self w q mr cs l t)) =
         Some (if is_TimeoutException c then TimeoutFailure
               else ConnectionFailure)) /\
    (forall q mr cs l t rq r,
       fst (search self w q mr cs l t) = [rq] ->
       http_get w rq = Responded r ->
       (status_code r < 200 \/ 299 < status_code r) ->
       raised_kind (snd (search self w q mr cs l t)) = Some ConnectionFailure).
Proof.
  intros self w. repeat split.
  - intros c m Hget Hc. simpl. unfold get_and_check. rewrite Hget. simpl.
    apply health_check_handler_kind; assumption.
  - intros r Hget Hst. simpl.
    rewrite (get_and_check_bad_status _ _ Hget Hst). reflexivity.
  - intros q mr cs l t rq c m Hsent Hget Hc.
    rewrite (search_sent _ _ _ _ _ _ _ Hsent).
    unfold get_and_check. rewrite Hget. simpl.
    apply search_handler_kind; assumption.
  - intros q mr cs l t rq r Hsent Hget Hst.
    rewrite (search_sent _ _ _ _ _ _ _ Hsent).
    rewrite (get_and_check_bad_status _ _ Hget Hst). reflexivity.
Qed.

(** C3, as stated, fails: a ReadError is a transport error that is
    neither a timeout nor a failure to connect, and both operations
    raise SearXNGConnectionError for it, the class they raise for a
    ConnectError. *)
Lemma read_error_is_reported_as_connection_failure :
  let self := new_client default_config in
  let w := constant_world (Failed (Exn (Httpx ReadError) "peer reset")) in
  let unreachable :=
    constant_world (Failed (Exn (Httpx ConnectError) "refused")) in
  is_TimeoutException ReadError = false /\
  is_ConnectError ReadError = false /\
  is_HTTPError ReadError = true /\
  raised_kind (snd (health_check self w)) = Some ConnectionFailure /\
  raised_kind (snd (health_check self w)) <> Some TransportFailure /\
  raised_kind (snd (health_check self w)) =
    raised_kind (snd (health_check self unreachable)) /\
  raised_kind (snd (search self w (PyStr "rust") None PyNone PyNone PyNone))
    = Some ConnectionFailure /\
  raised_kind (snd (search self w (PyStr "rust") None PyNone PyNone PyNone))
    <> Some TransportFailure /\
  raised_kind (snd (search self w (PyStr "rust") None PyNone PyNone PyNone))
    = raised_kind
        (snd (search self unreachable (PyStr "rust") None PyNone PyNone PyNone)).
Proof.
  vm_compute. repeat split; discriminate.
Qed.

Lemma transport_errors_become_timeout_or_connection_witness :
  let self := new_client default_config in
  let slow := constant_world (Failed (Exn (Httpx ReadTimeout) "slow")) in
  let broken :=
    constant_world (Responded {| status_code := 502; json := None |}) in
  raised_kind (snd (health_check self slow)) = Some TimeoutFailure /\
  raised_kind (snd (health_check self broken)) = Some ConnectionFailure /\
  raised_kind (snd (search self slow (PyStr "rust") None PyNone PyNone PyNone))
    = Some TimeoutFailure /\
  raised_kind
    (snd (search self broken (PyStr "rust") None PyNone PyNone PyNone))
    = Some ConnectionFailure.
Proof.
  intros self slow broken.
  destruct (transport_errors_become_timeout_or_connection self slow)
    as (H1 & _ & H3 & _).
  destruct (transport_errors_become_timeout_or_connection self broken)
    as (_ & H2 & _ & H4).
  split; [exact (H1 ReadTimeout "slow"%string eq_refl eq_refl) |].
  split; [apply (H2 {| status_code := 502; json := None |} eq_refl);
          right; reflexivity |].
  split.
  - exact (H3 (PyStr "rust") None PyNone PyNone PyNone _ ReadTimeout
              "slow"%string eq_refl eq_refl eq_refl).
  - apply (H4 (PyStr "rust") None PyNone PyNone PyNone _
              {| status_code := 502; json := None |} eq_refl eq_refl).
    right; reflexivity.
Defined.

(* ================================================================== *)
(** ** The tool handler: validation and error mapping *)
(* ================================================================== *)

Lemma append_assoc (a b c : string) : ((a ++ b) ++ c = a ++ (b ++ c))%string.
Proof.
  induction a as [| x a IH]; simpl; [reflexivity | now rewrite IH].
Qed.

Lemma is_positive_integer_spec v :
  is_positive_integer v = true <-> exists n, isinstance_int v = Some n /\ 1 <= n.
Proof.
  destruct v as [| [|] | n | f | s | l | d]; simpl; split;
    try discriminate; try (intros (n0 & H & _); discriminate H).
  - intros _. exists 1. split; [reflexivity | lia].
  - reflexivity.
  - intros (n0 & H & Hn). injection H as <-. lia.
  - intros H. exists n. split; [reflexivity | lia].
  - intros (n0 & H & Hn). injection H as <-. lia.
Qed.

(** [_handle_web_search] either raises ValueError with the server
    untouched and nothing done, or delegates once. *)
Lemma handle_web_search_cases self w arguments :
  let q := dict_get_default arguments "query" PyNone in
  let mr := dict_get_default arguments "max_results" (PyInt 10) in
  let c := dict_get_default arguments "categories" PyNone in
  let l := dict_get_default arguments "language" PyNone in
  let t := dict_get_default arguments "time_range" PyNone in
  ((py_truthy q = false \/ is_positive_integer mr = false \/
    exists n, isinstance_int mr = Some n /\ max_results_limit (config self) < n)
   /\ exists msg,
        _handle_web_search self w arguments
        = (self, [], Raise (Exn ValueError msg)))
  \/
  (exists n,
      py_truthy q = true /\ isinstance_int mr = Some n /\
      1 <= n <= max_results_limit (config self) /\
      let self' := {| config := config self;
                      client := Some (gateway_of self) |} in
      let call := search (gateway_of self) w q (Some n) c l t in
      _handle_web_search self w arguments
      = (self',
         Delegated q (Some n) c l t :: map Requested (fst call),
         reraise
           (rs <- snd call ;;
            Return [{| type := "text"; text := _format_search_results rs |}])
           (web_search_handler self'))).
Proof.
  intros q mr c l t. unfold _handle_web_search.
  fold q mr c l t.
  destruct (py_truthy q) eqn:Hq; cbn [negb].
  2:{ left. split; [auto | eexists; reflexivity]. }
  destruct (isinstance_int mr) as [n |] eqn:Hmr.
  2:{ left. split; [| eexists; reflexivity].
      right; left.
      destruct (is_positive_integer mr) eqn:E; [| reflexivity].
      apply is_positive_integer_spec in E. destruct E as (n & E & _).
      congruence. }
  destruct (n <? 1) eqn:Hn1.
  { left. split; [| eexists; reflexivity].
    right; left.
    destruct (is_positive_integer mr) eqn:E; [| reflexivity].
    apply is_positive_integer_spec in E. destruct E as (n' & E & Hn').
    assert (n' = n) by congruence. lia. }
  destruct (max_results_limit (config self) <? n) eqn:Hn2.
  { left. split; [| eexists; reflexivity].
    right; right. exists n. split; [reflexivity | lia]. }
  right. exists n. repeat split; try lia.
  fold (gateway_of self).
  destruct (search (gateway_of self) w q (Some n) c l t) as [requests found].
  reflexivity.
Qed.

Lemma web_search_handler_ValueError self e :
  exn_class (web_search_handler self e) = ValueError.
Proof.
  unfold web_search_handler. destruct (exn_class e); reflexivity.
Qed.

Lemma append_empty (s : string) : (s ++ "")%string = s.
Proof.
  induction s as [| x s IH]; simpl; [reflexivity | now rewrite IH].
Qed.

Ltac plain_prefix p :=
  exists p, ""%string; rewrite append_empty;
  split; [reflexivity | split; [discriminate | discriminate]].

Lemma web_search_handler_message self e :
  exists prefix suffix,
    exn_str (web_search_handler self e) = prefix ++ exn_str e ++ suffix /\
    prefix <> "" /\
    (exn_class e = SearXNGConnectionError ->
     exists before,
       exn_str (web_search_handler self e)
       = before ++ searxng_base_url (config self)).
Proof.
  unfold web_search_handler.
  destruct (exn_class e) eqn:Hc;
    try (first [ plain_prefix "Search request timed out: "
               | plain_prefix "Invalid response from SearXNG: "
               | plain_prefix "SearXNG client error: "
               | plain_prefix "Unexpected error during search: " ]).
  exists "Failed to connect to SearXNG: ".
  exists (newline ++ newline ++ "Please ensure SearXNG is running at "
            ++ searxng_base_url (config self)).
  split; [reflexivity |].
  split; [discriminate |]. intros _.
  exists ("Failed to connect to SearXNG: " ++ exn_str e ++ newline ++ newline
            ++ "Please ensure SearXNG is running at ").
  cbn [exn_str]. rewrite !append_assoc. reflexivity.
Qed.

(** The calls the handler rejects.  A call fails with ValueError, with
    the server as it was and neither a delegation to the client nor a
    request, whenever [query] is absent or empty, or [max_results] (10
    when absent) is neither an integer from 1 on nor [True], or it
    exceeds the configured limit; so it does for every [max_results]
    that is zero or negative. *)
Theorem invoke_rejects_before_delegating :
  forall self w name arguments,
    (dict_get arguments "query" = None \/
     dict_get arguments "query" = Some (PyStr "") \/
     is_positive_integer
       (dict_get_default arguments "max_results" (PyInt 10)) = false \/
     (exists n,
        isinstance_int
          (dict_get_default arguments "max_results" (PyInt 10)) = Some n /\
        max_results_limit (config self) < n) \/
     (exists n, dict_get arguments "max_results" = Some (PyInt n) /\ n <= 0)) ->
    exists msg,
      call_tool self w name arguments = (self, [], Raise (Exn ValueError msg)).
Proof.
  intros self w name arguments H.
  unfold call_tool.
  destruct (negb (name =? "web_search")%string);
    [eexists; reflexivity |].
  destruct (handle_web_search_cases self w arguments)
    as [(_ & Hfail) | (n & Hq & Hmr & Hn & Hrun)]; [exact Hfail | exfalso].
  unfold dict_get_default in *.
  destruct H as [H | [H | [H | [(n' & H & Hn') | (n' & H & Hn')]]]].
  all: try (rewrite H in Hq; simpl in Hq; discriminate Hq).
  all: try (rewrite H in Hmr; simpl in Hmr; injection Hmr as <-; lia).
  all: try (assert (n' = n) by congruence; lia).
  all: assert (E : is_positive_integer
                     match dict_get arguments "max_results" with
                     | Some v => v
                     | None => PyInt 10
                     end = true)
    by (apply is_positive_integer_spec; exists n; split; [exact Hmr | lia]).
  all: congruence.
Qed.

Lemma invoke_rejects_before_delegating_witness :
  exists msg,
    call_tool (new_server default_config) (answering example_body)
      "web_search" [("query", PyStr "rust"); ("max_results", PyInt 0)]
    = (new_server default_config, [], Raise (Exn ValueError msg)).
Proof.
  apply (invoke_rejects_before_delegating
           (new_server default_config) (answering example_body) "web_search"
           [("query", PyStr "rust"); ("max_results", PyInt 0)]).
  right; right; right; right.
  exists 0. split; [reflexivity | lia].
Defined.

(** C6, at the input where the code departs from it.  The tool is
    advertised with a [max_results] of type integer and minimum 1, and
    the handler's message asks for a positive integer; yet
    [isinstance(True, int)] holds and [True < 1] does not, so a call
    with [max_results] true passes both checks, is delegated to
    [search] with the value acting as 1, sends a request and returns a
    result. *)
Lemma boolean_max_results_is_delegated :
  let self := new_server default_config in
  let run :=
    call_tool self (answering example_body) "web_search"
      [("query", PyStr "rust"); ("max_results", PyBool true)] in
  map (fun tool =>
         (schema_property (inputSchema tool) "max_results" "type",
          schema_property (inputSchema tool) "max_results" "minimum"))
      (list_tools self)
  = [(Some (PyStr "integer"), Some (PyInt 1))] /\
  events_of run
  = [Delegated (PyStr "rust") (Some 1) PyNone PyNone PyNone;
     Requested (search_request (new_client default_config)
                  [("q", PyStr "rust"); ("format", PyStr "json")])] /\
  outcome_of run
  = Return [{| type := "text";
               text := _format_search_results
                         {| query := "rust programming";
                            results := firstn 1 example_results;
                            number_of_results := 1 |} |}] /\
  server_of run
  = {| config := default_config;
       client := Some (new_client default_config) |}.
Proof.
  intros self run. repeat split.
Qed.

Lemma Delegated_not_Requested q mr c l t (rqs : list request) :
  ~ In (Delegated q mr c l t) (map Requested rqs).
Proof.
  intros H. apply in_map_iff in H. destruct H as (rq & H & _).
  discriminate H.
Qed.

(** C4. Whatever a tool call raises is a ValueError.  When the call
    delegated to [search] and [search] raised [e0], of whatever class,
    the call raises a ValueError whose message is the text of [e0]
    after a describing prefix; for a SearXNGConnectionError the message
    ends with the configured base URL. *)
Theorem invoke_maps_every_failure_to_ValueError :
  forall self w name arguments self' events out,
    call_tool self w name arguments = (self', events, out) ->
    (forall e, out = Raise e -> exn_class e = ValueError) /\
    (forall q mr c l t e0,
       In (Delegated q mr c l t) events ->
       snd (search (gateway_of self) w q mr c l t) = Raise e0 ->
       client self' = Some (gateway_of self) /\
       exists msg prefix suffix,
         out = Raise (Exn ValueError msg) /\
         msg = (prefix ++ exn_str e0 ++ suffix)%string /\
         prefix <> ""%string /\
         (exn_class e0 = SearXNGConnectionError ->
          exists before,
            msg = (before ++ searxng_base_url (config self))%string)).
Proof.
  intros self w name arguments self' events out.
  unfold call_tool.
  destruct (negb (name =? "web_search")%string).
  { intros H; injection H as <- <- <-. split.
    - intros e He; injection He as <-; reflexivity.
    - intros q mr c l t e0 [].
  }
  destruct (handle_web_search_cases self w arguments)
    as [(_ & msg & ->) | (n & _ & _ & _ & Hrun)].
  { intros H; injection H as <- <- <-. split.
    - intros e He; injection He as <-; reflexivity.
    - intros q mr c l t e0 [].
  }
  cbv zeta in Hrun.
  remember (search (gateway_of self) w
              (dict_get_default arguments "query" PyNone) (Some n)
              (dict_get_default arguments "categories" PyNone)
              (dict_get_default arguments "language" PyNone)
              (dict_get_default arguments "time_range" PyNone))
    as call eqn:Hcall.
  rewrite Hrun. clear Hrun.
  intros H; injection H as <- <- <-. split.
  - intros e He. apply reraise_Raise in He. destruct He as (e0 & _ & ->).
    apply web_search_handler_ValueError.
  - intros q mr c l t e0 [Hin | Hin] Hraise.
    2:{ exfalso. exact (Delegated_not_Requested _ _ _ _ _ _ Hin). }
    injection Hin as <- <- <- <- <-.
    split; [reflexivity |].
    rewrite <- Hcall in Hraise. rewrite Hraise. cbn [bind reraise].
    set (self' := {| config := config self; client := Some (gateway_of self) |}).
    destruct (web_search_handler_message self' e0)
      as (prefix & suffix & Hmsg & Hprefix & Hurl).
    exists (exn_str (web_search_handler self' e0)), prefix, suffix.
    repeat split; auto.
    pose proof (web_search_handler_ValueError self' e0) as Hc.
    destruct (web_search_handler self' e0) as [cl m]. simpl in Hc |- *.
    now subst cl.
Qed.

Lemma invoke_maps_every_failure_to_ValueError_witness :
  let unreachable :=
    constant_world (Failed (Exn (Httpx ConnectError) "refused")) in
  let call :=
    call_tool (new_server default_config) unreachable
      "web_search" [("query", PyStr "rust")] in
  (forall e, snd call = Raise e -> exn_class e = ValueError) /\
  exists msg,
    snd call = Raise (Exn ValueError msg) /\
    exists before, msg = (before ++ "http://localhost:8080")%string.
Proof.
  intros unreachable call.
  destruct (invoke_maps_every_failure_to_ValueError
              (new_server default_config) unreachable
              "web_search" [("query", PyStr "rust")] eq_refl) as [Hclass H].
  split; [exact Hclass |].
  destruct (H (PyStr "rust") (Some 10) PyNone PyNone PyNone _
              (or_introl eq_refl) eq_refl)
    as (_ & msg & prefix & suffix & Hout & _ & _ & Hurl).
  exists msg. split; [exact Hout | apply Hurl; reflexivity].
Defined.

(* ================================================================== *)
(** ** Parsing the elements of the results array *)
(* ================================================================== *)

Lemma all_strs_map (names : list string) :
  all_strs (map PyStr names) = Some names.
Proof.
  induction names as [| s names IH]; simpl; [reflexivity |].
  now rewrite IH.
Qed.

Lemma all_strs_Some (l : list pyval) (names : list string) :
  all_strs l = Some names -> l = map PyStr names.
Proof.
  revert names. induction l as [| v l IH]; simpl; intros names H.
  - injection H as <-. reflexivity.
  - destruct v; try discriminate H.
    destruct (all_strs l) as [ss |]; [| discriminate H].
    injection H as <-. simpl. now rewrite (IH ss eq_refl).
Qed.

Lemma all_in_object w d :
  all_in w required_fields (PyDict d) = Return (has_required_fields (PyDict d)).
Proof.
  unfold has_required_fields, required_fields; simpl.
  destruct (dict_get d "title"); simpl; [| reflexivity].
  destruct (dict_get d "url"); simpl; [| reflexivity].
  destruct (dict_get d "content"); reflexivity.
Qed.

Lemma parse_result_skips_object w d :
  has_required_fields (PyDict d) = false ->
  parse_result w (PyDict d) = Return None.
Proof.
  intros H. unfold parse_result. rewrite all_in_object, H. reflexivity.
Qed.

Lemma parse_result_None w element :
  parse_result w element = Return None -> has_required_fields element = false.
Proof.
  destruct element; try reflexivity.
  unfold parse_result. rewrite all_in_object. cbn [bind].
  destruct (has_required_fields (PyDict d)); [| reflexivity].
  cbn [negb]. intros H.
  repeat (apply bind_Return in H; destruct H as (? & _ & H)).
  discriminate H.
Qed.

Lemma make_SearchResult_Return w t u c p e r :
  make_SearchResult w t u c p e = Return r ->
  exists t' u' c' p' e',
    t = PyStr t' /\ u = PyStr u' /\ c = PyStr c' /\
    as_optional_str p = Some p' /\ as_list_str e = Some e' /\
    r = {| title := t'; url := u'; content := c';
           publishedDate := p'; engines := e' |}.
Proof.
  unfold make_SearchResult.
  destruct t; try discriminate. destruct u; try discriminate.
  destruct c; try (simpl; discriminate). simpl.
  destruct (as_optional_str p) as [p' |]; [| discriminate].
  destruct (as_list_str e) as [e' |]; [| discriminate].
  intros H; injection H as <-.
  do 5 eexists. repeat split; reflexivity.
Qed.

Lemma published_from_default d p :
  as_optional_str (dict_get_default d "publishedDate" PyNone) = Some p ->
  published_from (dict_get d "publishedDate") p.
Proof.
  unfold dict_get_default.
  destruct (dict_get d "publishedDate") as [v |]; simpl.
  - destruct v; simpl; try discriminate; intros H; injection H as <-;
      constructor.
  - intros H; injection H as <-. constructor.
Qed.

Lemma engines_from_default d e :
  as_list_str (dict_get_default d "engines" (PyList [])) = Some e ->
  engines_from (dict_get d "engines") e.
Proof.
  unfold dict_get_default.
  destruct (dict_get d "engines") as [v |]; simpl.
  - destruct v; simpl; try discriminate. intros H.
    rewrite (all_strs_Some _ H). constructor.
  - intros H; injection H as <-. constructor.
Qed.

Lemma parse_result_Some w element r :
  parse_result w element = Return (Some r) ->
  element_outcome element (Some r).
Proof.
  unfold parse_result. intros H.
  apply bind_Return in H; destruct H as (ok & _ & H).
  destruct (negb ok); [discriminate H |].
  apply bind_Return in H; destruct H as (t & Ht & H).
  apply bind_Return in H; destruct H as (u & Hu & H).
  apply bind_Return in H; destruct H as (c & Hc & H).
  apply bind_Return in H; destruct H as (p & Hp & H).
  apply bind_Return in H; destruct H as (e & He & H).
  apply bind_Return in H; destruct H as (r' & Hr & H).
  injection H as <-.
  destruct element; try discriminate Ht.
  simpl in Ht, Hu, Hc, Hp, He.
  destruct (dict_get d "title") as [t0 |] eqn:Et; [| discriminate Ht].
  destruct (dict_get d "url") as [u0 |] eqn:Eu; [| discriminate Hu].
  destruct (dict_get d "content") as [c0 |] eqn:Ec; [| discriminate Hc].
  injection Ht as ->. injection Hu as ->. injection Hc as ->.
  injection Hp as <-. injection He as <-.
  apply make_SearchResult_Return in Hr.
  destruct Hr as (t' & u' & c' & p' & e' & -> & -> & -> & Hp & He & ->).
  apply element_kept; auto.
  - apply published_from_default; assumption.
  - apply engines_from_default; assumption.
Qed.

Lemma parse_result_object w element o :
  is_object element -> element_outcome element o ->
  parse_result w element = Return o.
Proof.
  intros (d0 & ->) H.
  inversion H as [x Hlack | d t u c p e Ht Hu Hc Hp He]; subst.
  - apply parse_result_skips_object; assumption.
  - unfold parse_result. rewrite all_in_object.
    unfold has_required_fields, has_field. rewrite Ht, Hu, Hc.
    cbn [andb negb bind py_getitem py_get]. rewrite Ht, Hu, Hc.
    cbn [bind]. unfold dict_get_default, make_SearchResult.
    cbn [as_str].
    inversion Hp; inversion He; cbn [as_optional_str as_list_str];
      rewrite ?all_strs_map; reflexivity.
Qed.

Lemma kept_app a b : kept (a ++ b) = (kept a ++ kept b)%list.
Proof.
  induction a as [| [r |] a IH]; simpl; [reflexivity | now rewrite IH | exact IH].
Qed.

Lemma parse_loop_Return w items :
  forall acc out,
    parse_loop w items acc = Return out ->
    exists outcomes,
      Forall2 element_outcome items outcomes /\
      out = (acc ++ kept outcomes)%list.
Proof.
  induction items as [| element items IH]; simpl; intros acc out H.
  - injection H as <-. exists []. split; [constructor |].
    symmetry; apply app_nil_r.
  - apply bind_Return in H. destruct H as (o & Ho & H).
    destruct o as [r |].
    + apply IH in H. destruct H as (outcomes & Hall & ->).
      exists (Some r :: outcomes). split.
      * constructor; [apply (parse_result_Some _ _ Ho) | exact Hall].
      * simpl. rewrite <- app_assoc. reflexivity.
    + apply IH in H. destruct H as (outcomes & Hall & ->).
      exists (None :: outcomes). split; [| reflexivity].
      constructor; [| exact Hall].
      constructor. apply (parse_result_None _ _ Ho).
Qed.

Lemma parse_loop_objects w items outcomes :
  Forall is_object items ->
  Forall2 element_outcome items outcomes ->
  forall acc, parse_loop w items acc = Return (acc ++ kept outcomes)%list.
Proof.
  intros Hobj H. induction H as [| element o items outcomes Ho _ IH];
    intros acc; simpl.
  - now rewrite app_nil_r.
  - inversion Hobj as [| ? ? Hx Hrest]; subst.
    rewrite (parse_result_object w Hx Ho). cbn [bind].
    destruct o as [r |].
    + rewrite (IH Hrest). simpl. now rewrite <- app_assoc.
    + apply (IH Hrest).
Qed.

Lemma parse_loop_skip w d post : forall pre acc,
  has_required_fields (PyDict d) = false ->
  parse_loop w (pre ++ PyDict d :: post) acc = parse_loop w (pre ++ post) acc.
Proof.
  induction pre as [| x pre IH]; intros acc H; simpl.
  - rewrite (parse_result_skips_object w _ H). reflexivity.
  - destruct (parse_result w x) as [[r |] | e]; simpl; auto.
Qed.

Lemma parse_result_scalar w element :
  py_iter element = None -> exists e, parse_result w element = Raise e.
Proof.
  intros H. unfold parse_result, required_fields; cbn [all_in].
  destruct element; try discriminate H; eexists; reflexivity.
Qed.

Lemma parse_result_ill_typed w d :
  has_required_fields (PyDict d) = true ->
  (forall r, ~ element_outcome (PyDict d) (Some r)) ->
  exists e, parse_result w (PyDict d) = Raise e.
Proof.
  intros Hall Hnone.
  destruct (parse_result w (PyDict d)) as [[r |] | e] eqn:E.
  - exfalso. exact (Hnone r (parse_result_Some _ _ E)).
  - apply parse_result_None in E. congruence.
  - exists e; reflexivity.
Qed.

Lemma parse_loop_fails_at w element post :
  (exists e, parse_result w element = Raise e) ->
  forall pre acc,
    exists e, parse_loop w (pre ++ element :: post) acc = Raise e.
Proof.
  intros (e & He). induction pre as [| x pre IH]; intros acc; simpl.
  - rewrite He. exists e; reflexivity.
  - destruct (parse_result w x) as [[r |] | e'].
    + apply IH.
    + apply IH.
    + exists e'; reflexivity.
Qed.

Lemma accepted_results_failure_is_malformed w mr data e :
  accepted_results w data = Raise e ->
  parse_results w mr data
  = Raise (Exn SearXNGResponseError
               ("Failed to parse SearXNG response: " ++ exn_str e)).
Proof.
  intros H. unfold parse_results. rewrite H. reflexivity.
Qed.

(** C5, as the code has it.  (1) Whenever the elements of the results
    array are accepted, what is kept is, in order, one result for each
    element that has [title], [url] and [content], with [publishedDate]
    null when the field is absent and [engines] empty when the field is
    absent, and nothing for an element that lacks one of the three.
    (2) An array of objects each of which lacks a required field or has
    the fields with the types of the model is always accepted, with
    exactly those results.  (3) An object that lacks a required field
    is passed over: the loop goes on as if the element were not there.
    (4) An element that is null, a boolean or a number, and (5) an
    object that has the three fields but not with the types of the
    model, are not passed over: the loop fails at them, and (6) every
    failure of the loop leaves the [try] block as a
    SearXNGResponseError. *)
Theorem results_parsing_skips_incomplete_elements :
  (forall w data accepted,
     accepted_results w data = Return accepted ->
     exists raw items outcomes,
       py_getitem w data "results" = Return raw /\
       py_iter raw = Some items /\
       Forall2 element_outcome items outcomes /\
       accepted = kept outcomes) /\
  (forall w d items outcomes,
     dict_get d "results" = Some (PyList items) ->
     Forall is_object items ->
     Forall2 element_outcome items outcomes ->
     accepted_results w (PyDict d) = Return (kept outcomes)) /\
  (forall w d pre post acc,
     has_required_fields (PyDict d) = false ->
     parse_loop w (pre ++ PyDict d :: post) acc
     = parse_loop w (pre ++ post) acc) /\
  (forall w element pre post acc,
     py_iter element = None ->
     exists e, parse_loop w (pre ++ element :: post) acc = Raise e) /\
  (forall w d pre post acc,
     has_required_fields (PyDict d) = true ->
     (forall r, ~ element_outcome (PyDict d) (Some r)) ->
     exists e, parse_loop w (pre ++ PyDict d :: post) acc = Raise e) /\
  (forall w mr data e,
     accepted_results w data = Raise e ->
     exists msg,
       parse_results w mr data = Raise (Exn SearXNGResponseError msg)).
Proof.
  split; [| split; [| split; [| split; [| split]]]].
  - intros w data accepted H. unfold accepted_results in H.
    apply bind_Return in H. destruct H as (raw & Hraw & H).
    apply bind_Return in H. destruct H as (items & Hitems & H).
    destruct (py_iter raw) as [l |] eqn:Hiter; [| discriminate Hitems].
    injection Hitems as ->.
    apply parse_loop_Return in H. destruct H as (outcomes & Hall & ->).
    exists raw, items, outcomes. auto.
  - intros w d items outcomes Hres Hobj Hall.
    unfold accepted_results. cbn [py_getitem]. rewrite Hres. cbn [bind py_iter].
    apply (parse_loop_objects w Hobj Hall []).
  - intros w d pre post acc H. apply parse_loop_skip; assumption.
  - intros w element pre post acc H.
    apply parse_loop_fails_at. apply parse_result_scalar; assumption.
  - intros w d pre post acc Hall Hnone.
    apply parse_loop_fails_at. apply parse_result_ill_typed; assumption.
  - intros w mr data e H. eexists.
    apply accepted_results_failure_is_malformed; exact H.
Qed.

Lemma results_parsing_skips_incomplete_elements_witness :
  accepted_results (answering example_body) example_body
    = Return example_results /\
  (exists raw items outcomes,
     py_getitem (answering example_body) example_body "results" = Return raw /\
     py_iter raw = Some items /\
     Forall2 element_outcome items outcomes /\
     example_results = kept outcomes) /\
  parse_loop (answering example_body)
    ([PyDict [("title", PyStr "Rust"); ("url", PyStr "https://rust-lang.org");
              ("content", PyStr "A systems language")]]
       ++ PyDict [("title", PyStr "No address")] :: [PyDict []]) []
  = parse_loop (answering example_body)
      ([PyDict [("title", PyStr "Rust"); ("url", PyStr "https://rust-lang.org");
                ("content", PyStr "A systems language")]]
         ++ [PyDict []]) [] /\
  (exists e,
     parse_loop (answering example_body) ([] ++ PyInt 5 :: []) [] = Raise e) /\
  (exists msg,
     parse_results (answering null_content_body) None null_content_body
     = Raise (Exn SearXNGResponseError msg)).
Proof.
  destruct results_parsing_skips_incomplete_elements
    as (H1 & H2 & H3 & H4 & _ & H6).
  split; [| split; [| split; [| split]]].
  - eapply (H2 (answering example_body) _ _
              [Some {| title := "Rust"; url := "https://rust-lang.org";
                       content := "A systems language"; publishedDate := None;
                       engines := ["duckduckgo"] |};
               None;
               Some {| title := "The Book";
                       url := "https://doc.rust-lang.org/book";
                       content := ""; publishedDate := Some "2018-06-26";
                       engines := [] |}]).
    + reflexivity.
    + repeat constructor; eexists; reflexivity.
    + constructor; [| constructor; [| constructor; [| constructor]]].
      * apply element_kept; try reflexivity.
        -- apply published_absent.
        -- apply (engines_given ["duckduckgo"]).
      * apply element_skipped. reflexivity.
      * apply element_kept; try reflexivity.
        -- apply published_given.
        -- apply engines_absent.
  - exact (H1 (answering example_body) example_body example_results eq_refl).
  - apply H3. reflexivity.
  - apply H4. reflexivity.
  - eapply H6. reflexivity.
Defined.

(** C5, as stated, fails.  An element that has [title], [url] and
    [content], the content being null, is not included: the whole
    response is refused.  An element that is a number has none of the
    fields and is not skipped: the whole response is refused, also for
    the complete element that follows it. *)
Lemma ill_typed_element_fails_the_response :
  has_required_fields null_content_element = true /\
  raised_kind
    (snd (search (new_client default_config) (answering null_content_body)
            (PyStr "rust") None PyNone PyNone PyNone))
  = Some MalformedResponse /\
  (forall rs,
     snd (search (new_client default_config) (answering null_content_body)
            (PyStr "rust") None PyNone PyNone PyNone) <> Return rs) /\
  has_required_fields (PyInt 5) = false /\
  raised_kind
    (snd (search (new_client default_config) (answering number_element_body)
            (PyStr "rust") None PyNone PyNone PyNone))
  = Some MalformedResponse /\
  (forall rs,
     snd (search (new_client default_config) (answering number_element_body)
            (PyStr "rust") None PyNone PyNone PyNone) <> Return rs).
Proof.
  repeat split; try reflexivity; intros rs H; vm_compute in H; discriminate H.
Qed.

(* ================================================================== *)
(** ** Formatting *)
(* ================================================================== *)

Lemma str_take_all (n : nat) (s : string) :
  (String.length s <= n)%nat -> str_take n s = s.
Proof.
  revert n. induction s as [| c s IH]; intros n H.
  - destruct n; reflexivity.
  - destruct n as [| n]; simpl in H; [lia |].
    simpl. rewrite IH; [reflexivity | lia].
Qed.

Lemma content_text_claimed (c : string) :
  content_text c = claimed_content_text c.
Proof.
  unfold content_text, claimed_content_text.
  destruct (Nat.ltb_spec 300 (String.length c)) as [H | H];
    destruct (Nat.leb_spec (String.length c) 300) as [H' | H']; try lia.
  - reflexivity.
  - apply str_take_all; assumption.
Qed.

Lemma append_result_lines lines i r :
  append_result lines i r = (lines ++ rendered_result_lines i r)%list.
Proof.
  unfold append_result, rendered_result_lines, append, published_line,
    sources_line.
  rewrite content_text_claimed.
  destruct (String.eqb (content r) ""); cbn [negb];
    destruct (publishedDate r) as [d |]; cbn [opt_truthy];
    try destruct (String.eqb d ""); cbn [negb];
    destruct (engines r);
    repeat rewrite <- app_assoc; reflexivity.
Qed.

Lemma format_loop_lines rs : forall lines i,
  format_loop lines i rs
  = (lines ++ flat_map (fun p => rendered_result_lines (fst p) (snd p))
                (enumerate i rs))%list.
Proof.
  induction rs as [| r rs IH]; intros lines i; simpl.
  - symmetry; apply app_nil_r.
  - rewrite IH, append_result_lines, <- app_assoc. reflexivity.
Qed.

Lemma rendered_as_claimed i r :
  content r <> ""%string -> publishedDate r <> Some ""%string ->
  rendered_result_lines i r = claimed_result_lines i r.
Proof.
  intros Hc Hd. unfold rendered_result_lines, claimed_result_lines.
  destruct (String.eqb_spec (content r) "") as [E | _]; [contradiction |].
  unfold published_line.
  destruct (publishedDate r) as [d |]; cbn [opt_truthy]; [| reflexivity].
  destruct (String.eqb_spec d "") as [E | _]; [subst; contradiction |].
  reflexivity.
Qed.

Lemma flat_map_enumerate_ext (f g : Z -> SearchResult -> list string) rs :
  forall i,
    Forall (fun r => forall j, f j r = g j r) rs ->
    flat_map (fun p => f (fst p) (snd p)) (enumerate i rs)
    = flat_map (fun p => g (fst p) (snd p)) (enumerate i rs).
Proof.
  induction rs as [| r rs IH]; intros i H; simpl; [reflexivity |].
  inversion H as [| ? ? Hr Hrs]; subst.
  rewrite Hr, (IH _ Hrs). reflexivity.
Qed.

(** C7, as the code has it.  For a result set that is not empty the
    text is the two header lines and then, for each result in the
    order of the sequence and numbered from 1: the title line, the URL
    line, the content line when the content is not empty (the content
    unchanged up to 300 characters, else its first 300 characters and
    an ellipsis), the date line when a date is there and not empty,
    the sources line when there are engines, and a blank line.  On
    results whose content is not empty and whose date is not the empty
    string this is the text the specification describes. *)
Theorem format_lists_results_in_order :
  forall rs,
    results rs <> [] ->
    _format_search_results rs = rendered_format rs /\
    (Forall (fun r => content r <> ""%string /\
                      publishedDate r <> Some ""%string) (results rs) ->
     _format_search_results rs = claimed_format rs).
Proof.
  intros rs Hne.
  assert (H : _format_search_results rs = rendered_format rs).
  { unfold _format_search_results, rendered_format, format_with.
    destruct (results rs) as [| r rest] eqn:E; [contradiction |].
    rewrite format_loop_lines. reflexivity. }
  split; [exact H |].
  intros Hall. rewrite H. unfold rendered_format, claimed_format, format_with.
  f_equal. f_equal.
  apply flat_map_enumerate_ext.
  eapply Forall_impl; [| exact Hall].
  intros r [Hc Hd] j. apply rendered_as_claimed; assumption.
Qed.

Lemma format_lists_results_in_order_witness :
  let both :=
    {| query := "rust programming"; results := example_results;
       number_of_results := 2 |} in
  let first :=
    {| query := "rust programming"; results := firstn 1 example_results;
       number_of_results := 1 |} in
  _format_search_results both = rendered_format both /\
  _format_search_results first = claimed_format first.
Proof.
  intros both first. split.
  - apply (format_lists_results_in_order both). discriminate.
  - apply (format_lists_results_in_order first); [discriminate |].
    repeat constructor; discriminate.
Defined.

(** C7, as stated, fails: a result whose content is empty gets no
    content line at all, where the specification has one for every
    result. *)
Lemma empty_content_gets_no_line :
  format_loop [] 1 [bare_result]
  = [("1. The Book")%string;
     ("   URL: https://doc.rust-lang.org/book")%string;
     ""%string] /\
  claimed_result_lines 1 bare_result
  = [("1. The Book")%string;
     ("   URL: https://doc.rust-lang.org/book")%string;
     ("   ")%string;
     ""%string] /\
  _format_search_results bare_results <> claimed_format bare_results.
Proof.
  split; [reflexivity | split; [reflexivity |]].
  vm_compute. discriminate.
Qed.

(** C8. For a result set whose sequence is empty the text is
    ["No results found for query: "] followed by the query, and
    nothing else. *)
Theorem format_of_no_results :
  forall rs,
    results rs = [] ->
    _format_search_results rs
    = ("No results found for query: " ++ query rs)%string.
Proof.
  intros rs H. unfold _format_search_results. rewrite H. reflexivity.
Qed.

Lemma format_of_no_results_witness :
  _format_search_results
    {| query := "rust"; results := []; number_of_results := 0 |}
  = "No results found for query: rust"%string.
Proof.
  apply (format_of_no_results
           {| query := "rust"; results := []; number_of_results := 0 |}).
  reflexivity.
Defined.

(* ================================================================== *)
(** ** The outbound request *)
(* ================================================================== *)

Lemma append_slash_not_empty (s : string) : (s ++ "/")%string <> ""%string.
Proof.
  destruct s; discriminate.
Qed.

Lemma rstrip_slash_no_trailing (s r : string) :
  rstrip_slash s <> (r ++ "/")%string.
Proof.
  revert r. induction s as [| c s IH]; intros r; simpl.
  - intros H. symmetry in H. exact (append_slash_not_empty _ H).
  - destruct (rstrip_slash s) as [| a b] eqn:E.
    + destruct (Ascii.eqb_spec c "/"%char) as [-> | Hc].
      * intros H. symmetry in H. exact (append_slash_not_empty _ H).
      * destruct r as [| x r]; simpl; intros H.
        -- injection H as H1. contradiction.
        -- injection H as _ H2. symmetry in H2.
           exact (append_slash_not_empty _ H2).
    + destruct r as [| x r]; simpl; intros H.
      * discriminate H.
      * injection H as _ H. exact (IH r H).
Qed.

Lemma rstrip_slash_strips_slashes (s : string) :
  exists k, s = (rstrip_slash s ++ slashes k)%string.
Proof.
  induction s as [| c s (k & IH)]; simpl.
  - exists O. reflexivity.
  - destruct (rstrip_slash s) as [| a b] eqn:E.
    + destruct (Ascii.eqb_spec c "/"%char) as [-> | Hc].
      * exists (S k). simpl. now rewrite IH at 1.
      * exists k. simpl. now rewrite IH at 1.
    + exists k. simpl. now rewrite IH at 1.
Qed.

Lemma py_join_names w sep names :
  py_join w sep (PyList (map PyStr names)) = Return (str_join sep names).
Proof.
  unfold py_join. simpl. now rewrite all_strs_map.
Qed.

(** The [params] dict: [q] and [format] first, then each optional
    parameter whose argument is true. *)
Lemma build_params_Return w q c l t params :
  build_params w q c l t = Return params ->
  exists cs,
    (if py_truthy c
     then exists joined,
            py_join w "," c = Return joined /\
            cs = [("categories"%string, PyStr joined)]
     else cs = []) /\
    params =
      ([("q"%string, q); ("format"%string, PyStr "json")] ++ cs
       ++ (if py_truthy l then [("language"%string, l)] else [])
       ++ (if py_truthy t then [("time_range"%string, t)] else []))%list.
Proof.
  unfold build_params. intros H.
  apply bind_Return in H. destruct H as (p0 & Hp0 & H).
  injection H as <-.
  destruct (py_truthy c).
  - apply bind_Return in Hp0. destruct Hp0 as (joined & Hj & Hp0).
    injection Hp0 as <-.
    exists [("categories"%string, PyStr joined)].
    split; [exists joined; auto |].
    destruct (py_truthy l), (py_truthy t); reflexivity.
  - injection Hp0 as <-. exists []. split; [reflexivity |].
    destruct (py_truthy l), (py_truthy t); reflexivity.
Qed.

Lemma search_trace self w q mr c l t rq :
  In rq (fst (search self w q mr c l t)) ->
  exists params,
    build_params w q c l t = Return params /\
    rq = search_request self params.
Proof.
  unfold search, search_call.
  destruct mr as [n |].
  - destruct (limit self <? n); [intros [] |].
    destruct (build_params w q c l t) as [params | e]; [| intros []].
    intros [<- | []]. exists params; auto.
  - destruct (build_params w q c l t) as [params | e]; [| intros []].
    intros [<- | []]. exists params; auto.
Qed.

Lemma search_sends_when_within_limit self w q mr c l t params :
  (mr = None \/ exists n, mr = Some n /\ n <= limit self) ->
  build_params w q c l t = Return params ->
  fst (search self w q mr c l t) = [search_request self params].
Proof.
  intros Hmr Hp. unfold search, search_call.
  destruct Hmr as [-> | (n & -> & Hn)].
  - rewrite Hp. reflexivity.
  - destruct (limit self <? n) eqn:E; [lia |]. rewrite Hp. reflexivity.
Qed.

Lemma typed_categories_build w q c l t :
  categories_typed c -> exists params, build_params w q c l t = Return params.
Proof.
  unfold build_params.
  intros [-> | (names & ->)]; cbn [py_truthy].
  - eexists; reflexivity.
  - destruct names as [| a names]; cbn [map].
    + eexists; reflexivity.
    + change (PyStr a :: map PyStr names) with (map PyStr (a :: names)).
      rewrite py_join_names. eexists; reflexivity.
Qed.

(** C9. A call of [search] whose [max_results] is absent or within
    the limit sends one request whenever its parameters can be built,
    which is always so when [categories] is absent or a list of
    strings.  Every request [search] sends goes to the base URL without
    its trailing slashes followed by [/search]; its parameters are
    among [q], [format], [categories], [language] and [time_range];
    [q] is the query and [format] is [json]; [categories] is there
    exactly when the argument is true (a list that is not empty), as
    the names joined with commas; [language] and [time_range] are there
    exactly when their argument is true, so never when it is None. *)
Theorem search_request_parameters :
  forall config w q mr c l t,
    ((mr = None \/ exists n, mr = Some n /\ n <= max_results_limit config) ->
     (forall params,
        build_params w q c l t = Return params ->
        fst (search (new_client config) w q mr c l t)
        = [search_request (new_client config) params]) /\
     (categories_typed c ->
      exists rq, fst (search (new_client config) w q mr c l t) = [rq])) /\
    forall rq,
    In rq (fst (search (new_client config) w q mr c l t)) ->
    req_url rq
      = (rstrip_slash (searxng_base_url config) ++ "/search")%string /\
    (forall r, rstrip_slash (searxng_base_url config) <> (r ++ "/")%string) /\
    (exists k, searxng_base_url config
               = (rstrip_slash (searxng_base_url config) ++ slashes k)%string) /\
    incl (dict_keys (req_params rq)) parameter_names /\
    dict_get (req_params rq) "q" = Some q /\
    dict_get (req_params rq) "format" = Some (PyStr "json") /\
    (py_truthy c = false -> dict_get (req_params rq) "categories" = None) /\
    (py_truthy c = true ->
     exists joined,
       py_join w "," c = Return joined /\
       dict_get (req_params rq) "categories" = Some (PyStr joined)) /\
    (forall names,
       c = PyList (map PyStr names) -> names <> [] ->
       dict_get (req_params rq) "categories"
       = Some (PyStr (String.concat "," names))) /\
    dict_get (req_params rq) "language"
      = (if py_truthy l then Some l else None) /\
    dict_get (req_params rq) "time_range"
      = (if py_truthy t then Some t else None) /\
    (l = PyNone -> dict_get (req_params rq) "language" = None) /\
    (t = PyNone -> dict_get (req_params rq) "time_range" = None).
Proof.
  intros config w q mr c l t. split.
  { intros Hmr.
    assert (Hmr' : mr = None \/
                   exists n, mr = Some n /\ n <= limit (new_client config))
      by exact Hmr.
    split.
    - intros params Hp.
      exact (search_sends_when_within_limit _ _ _ _ _ _ Hmr' Hp).
    - intros Hc. destruct (typed_categories_build w q l t Hc) as (params & Hp).
      eexists. exact (search_sends_when_within_limit _ _ _ _ _ _ Hmr' Hp). }
  intros rq Hin.
  apply search_trace in Hin. destruct Hin as (params & Hparams & ->).
  apply build_params_Return in Hparams. destruct Hparams as (cs & Hcs & ->).
  cbn [search_request req_url req_params new_client base_url].
  assert (Hlang :
    forall cs', (cs' = [] \/ exists v, cs' = [("categories"%string, v)]) ->
    dict_get ([("q"%string, q); ("format"%string, PyStr "json")] ++ cs'
                ++ (if py_truthy l then [("language"%string, l)] else [])
                ++ (if py_truthy t then [("time_range"%string, t)] else []))%list
             "language"
    = (if py_truthy l then Some l else None)).
  { intros cs' [-> | (v & ->)]; destruct (py_truthy l), (py_truthy t);
      reflexivity. }
  assert (Htime :
    forall cs', (cs' = [] \/ exists v, cs' = [("categories"%string, v)]) ->
    dict_get ([("q"%string, q); ("format"%string, PyStr "json")] ++ cs'
                ++ (if py_truthy l then [("language"%string, l)] else [])
                ++ (if py_truthy t then [("time_range"%string, t)] else []))%list
             "time_range"
    = (if py_truthy t then Some t else None)).
  { intros cs' [-> | (v & ->)]; destruct (py_truthy l), (py_truthy t);
      reflexivity. }
  assert (Hshape : cs = [] \/ exists v, cs = [("categories"%string, v)]).
  { destruct (py_truthy c); [right | left; exact Hcs].
    destruct Hcs as (joined & _ & ->). eexists; reflexivity. }
  split; [reflexivity |].
  split; [apply rstrip_slash_no_trailing |].
  split; [apply rstrip_slash_strips_slashes |].
  split.
  { unfold parameter_names, dict_keys.
    destruct Hshape as [-> | (v & ->)];
      destruct (py_truthy l), (py_truthy t); simpl;
      intros k Hk; simpl in Hk; simpl; tauto. }
  split; [reflexivity |].
  split; [reflexivity |].
  split.
  { intros Hc. rewrite Hc in Hcs. subst cs.
    destruct (py_truthy l), (py_truthy t); reflexivity. }
  split.
  { intros Hc. rewrite Hc in Hcs. destruct Hcs as (joined & Hj & ->).
    exists joined. split; [exact Hj |].
    destruct (py_truthy l), (py_truthy t); reflexivity. }
  split.
  { intros names -> Hne.
    assert (Hc : py_truthy (PyList (map PyStr names)) = true)
      by (destruct names; [contradiction | reflexivity]).
    rewrite Hc in Hcs. destruct Hcs as (joined & Hj & ->).
    rewrite py_join_names in Hj. injection Hj as <-.
    destruct (py_truthy l), (py_truthy t); reflexivity. }
  split; [apply Hlang; exact Hshape |].
  split; [apply Htime; exact Hshape |].
  split.
  - intros ->. rewrite (Hlang _ Hshape). reflexivity.
  - intros ->. rewrite (Htime _ Hshape). reflexivity.
Qed.

Lemma search_request_parameters_witness :
  let rq :=
    search_request (new_client slashed_config)
      [("q", PyStr "rust"); ("format", PyStr "json");
       ("categories", PyStr "general,news"); ("language", PyStr "en")] in
  (exists rq',
     fst (search (new_client slashed_config) (answering example_body)
            (PyStr "rust") (Some 50)
            (PyList (map PyStr ["general"; "news"])) (PyStr "en") PyNone)
     = [rq']) /\
  req_url rq = "http://searx.local/search"%string /\
  dict_get (req_params rq) "categories" = Some (PyStr "general,news") /\
  dict_get (req_params rq) "time_range" = None.
Proof.
  intros rq.
  destruct (search_request_parameters
              slashed_config (answering example_body) (PyStr "rust") (Some 50)
              (PyList (map PyStr ["general"; "news"])) (PyStr "en") PyNone)
    as (Hsends & Hshape).
  split.
  - assert (Hmr : Some 50 = None \/
                  exists n, Some 50 = Some n /\
                            n <= max_results_limit slashed_config).
    { right. exists 50. split; [reflexivity | intros H; discriminate H]. }
    destruct (Hsends Hmr) as [_ Htyped].
    apply Htyped. right. exists ["general"; "news"]%string. reflexivity.
  - destruct (Hshape rq (or_introl eq_refl))
      as (Hurl & _ & _ & _ & _ & _ & _ & _ & Hcats & _ & _ & _ & Htime).
    split; [exact Hurl | split].
    + apply (Hcats ["general"; "news"]%string eq_refl). discriminate.
    + apply Htime. reflexivity.
Defined.

(* ================================================================== *)
(** ** [search] called with a [max_results] that is not positive *)
(* ================================================================== *)

Lemma parse_results_nonpositive w n data :
  n <= 0 -> parse_results w (Some n) data = parse_results w None data.
Proof.
  intros Hn. unfold parse_results, limit_results.
  destruct (0 <? n) eqn:E; [lia | reflexivity].
Qed.

Lemma build_params_typed w q names l t :
  exists params,
    build_params w q (match names with
                      | Some ns => PyList (map PyStr ns)
                      | None => PyNone
                      end) l t = Return params.
Proof.
  unfold build_params.
  destruct names as [ns |]; cbn [py_truthy].
  - destruct ns as [| a ns]; cbn [map].
    + eexists; reflexivity.
    + change (PyStr a :: map PyStr ns) with (map PyStr (a :: ns)).
      rewrite py_join_names. eexists; reflexivity.
  - eexists; reflexivity.
Qed.

(** C10. With a [max_results] that is zero or negative, and so not
    above the limit, [search] does what it does with no [max_results]
    at all: the limit check passes, the request goes out whenever the
    parameters can be built (always, for a [categories] that is None
    or a list of strings), and a returned result set holds every
    accepted element, [number_of_results] being their number. *)
Theorem search_nonpositive_max_results_is_unbounded :
  forall self w q n c l t,
    n <= 0 -> n <= limit self ->
    search self w q (Some n) c l t = search self w q None c l t /\
    (forall params,
       build_params w q c l t = Return params ->
       fst (search self w q (Some n) c l t) = [search_request self params]) /\
    (forall names,
       c = match names with
           | Some ns => PyList (map PyStr ns)
           | None => PyNone
           end ->
       exists rq, fst (search self w q (Some n) c l t) = [rq]) /\
    (forall trace rs,
       search self w q (Some n) c l t = (trace, Return rs) ->
       exists rq r data accepted,
         trace = [rq] /\
         http_get w rq = Responded r /\ json r = Some data /\
         accepted_results w data = Return accepted /\
         results rs = accepted /\
         number_of_results rs = Z.of_nat (List.length accepted)).
Proof.
  intros self w q n c l t Hn Hlim.
  assert (Hcall : search self w q (Some n) c l t
                  = search_call self w q (Some n) c l t).
  { unfold search. destruct (limit self <? n) eqn:E; [lia | reflexivity]. }
  split; [| split; [| split]].
  - rewrite Hcall. unfold search, search_call.
    destruct (build_params w q c l t) as [params | e]; [| reflexivity].
    f_equal.
    destruct (reraise (get_and_check w (search_request self params))
                (search_handler self)) as [r | e]; [| reflexivity].
    cbn [bind].
    destruct (decode w r) as [data | e]; [| reflexivity].
    cbn [bind]. apply parse_results_nonpositive; assumption.
  - intros params Hp. rewrite Hcall. unfold search_call. rewrite Hp.
    reflexivity.
  - intros names ->. rewrite Hcall. unfold search_call.
    destruct (build_params_typed w q names l t) as (params & ->).
    eexists; reflexivity.
  - intros trace rs H.
    destruct (search_result_set _ _ _ _ _ _ _ H)
      as (rq & r & data & accepted & Ht & Hget & Hjson & Hacc & Hres).
    exists rq, r, data, accepted. repeat split; auto.
    + rewrite Hres. unfold limit_results.
      destruct (0 <? n) eqn:E; [lia | reflexivity].
    + rewrite Hres. unfold limit_results.
      destruct (0 <? n) eqn:E; [lia | reflexivity].
Qed.

Lemma search_nonpositive_max_results_is_unbounded_witness :
  let self := new_client default_config in
  let w := answering example_body in
  let rq := search_request self [("q", PyStr "rust"); ("format", PyStr "json")] in
  search self w (PyStr "rust") (Some (-2)) PyNone PyNone PyNone
    = search self w (PyStr "rust") None PyNone PyNone PyNone /\
  fst (search self w (PyStr "rust") (Some (-2)) PyNone PyNone PyNone) = [rq] /\
  (exists rq', fst (search self w (PyStr "rust") (Some (-2))
                      PyNone PyNone PyNone) = [rq']) /\
  exists rq' r data accepted,
    [rq] = [rq'] /\
    http_get w rq' = Responded r /\
    json r = Some data /\
    accepted_results w data = Return accepted /\
    example_results = accepted /\
    2 = Z.of_nat (List.length accepted).
Proof.
  intros self w rq.
  assert (H1 : -2 <= 0) by (intros H; discriminate H).
  assert (H2 : -2 <= limit self) by (intros H; discriminate H).
  destruct (search_nonpositive_max_results_is_unbounded
              self w (PyStr "rust") PyNone PyNone PyNone H1 H2)
    as (Hsame & Hsent & Htyped & Hall).
  split; [exact Hsame |].
  split; [exact (Hsent _ eq_refl) |].
  split; [exact (Htyped None eq_refl) |].
  exact (Hall _ {| query := "rust programming"; results := example_results;
                   number_of_results := 2 |} eq_refl).
Defined.

(* ================================================================== *)
(** ** Further properties of the client *)
(* ================================================================== *)

Lemma get_and_check_success w rq r :
  http_get w rq = Responded r -> is_success r = true ->
  get_and_check w rq = Return r.
Proof.
  intros Hget Hok. unfold get_and_check, raise_for_status. rewrite Hget.
  unfold is_success in Hok. rewrite Hok. reflexivity.
Qed.

Lemma get_and_check_Return w rq r :
  get_and_check w rq = Return r ->
  http_get w rq = Responded r /\ is_success r = true.
Proof.
  unfold get_and_check, raise_for_status, is_success.
  destruct (http_get w rq) as [r0 | e]; [| discriminate].
  destruct ((200 <=? status_code r0) && (status_code r0 <=? 299)) eqn:E;
    [| discriminate].
  intros H; injection H as <-. auto.
Qed.

(** What [search] does with a response that arrived with a 2xx
    status. *)
Lemma search_answered self w q mr c l t rq r :
  fst (search self w q mr c l t) = [rq] ->
  http_get w rq = Responded r -> is_success r = true ->
  snd (search self w q mr c l t)
  = (data <- decode w r ;; parse_results w mr data).
Proof.
  intros Hsent Hget Hok.
  rewrite (search_sent _ _ _ _ _ _ _ Hsent).
  rewrite (get_and_check_success _ _ Hget Hok). reflexivity.
Qed.

Lemma parse_results_outcome w mr data :
  (exists rs, parse_results w mr data = Return rs) \/
  (exists msg, parse_results w mr data = Raise (Exn SearXNGResponseError msg)).
Proof.
  unfold parse_results.
  match goal with
  | |- context [reraise ?m _] => destruct m as [rs | e]
  end; simpl; [left | right]; eexists; reflexivity.
Qed.

(** X1. A response whose body is no JSON, or a JSON object without
    [query], or one with [query] but without [results], makes [search]
    raise SearXNGResponseError with the message of that case; a missing
    [query] is reported before a missing [results]. *)
Theorem search_reports_malformed_body :
  forall self w q mr c l t rq r,
    fst (search self w q mr c l t) = [rq] ->
    http_get w rq = Responded r -> is_success r = true ->
    (json r = None ->
     snd (search self w q mr c l t)
     = Raise (Exn SearXNGResponseError
                  "SearXNG returned malformed JSON response")) /\
    (forall d,
       json r = Some (PyDict d) -> dict_get d "query" = None ->
       snd (search self w q mr c l t)
       = Raise (Exn SearXNGResponseError
                    "Invalid SearXNG response: missing 'query' field")) /\
    (forall d v,
       json r = Some (PyDict d) -> dict_get d "query" = Some v ->
       dict_get d "results" = None ->
       snd (search self w q mr c l t)
       = Raise (Exn SearXNGResponseError
                    "Invalid SearXNG response: missing 'results' field")).
Proof.
  intros self w q mr c l t rq r Hsent Hget Hok.
  rewrite (search_answered _ _ _ _ _ _ _ Hsent Hget Hok).
  unfold decode. repeat split.
  - intros ->. reflexivity.
  - intros d -> Hq. cbn [bind py_contains py_in]. rewrite Hq. reflexivity.
  - intros d v -> Hq Hr. cbn [bind py_contains py_in]. rewrite Hq.
    cbn [bind negb]. rewrite Hr. reflexivity.
Qed.

Lemma search_reports_malformed_body_witness :
  snd (search (new_client default_config)
         (answering (PyDict [("results", PyList [])]))
         (PyStr "rust") None PyNone PyNone PyNone)
  = Raise (Exn SearXNGResponseError
               "Invalid SearXNG response: missing 'query' field").
Proof.
  destruct (search_reports_malformed_body
              (new_client default_config)
              (answering (PyDict [("results", PyList [])]))
              (PyStr "rust") None PyNone PyNone PyNone
              eq_refl eq_refl eq_refl) as (_ & H & _).
  apply (H [("results", PyList [])]); reflexivity.
Defined.

(** X2. When the body of a 2xx response is a JSON object, [search]
    returns a result set or raises SearXNGResponseError, whatever the
    object holds: no other exception leaves the parsing. *)
Theorem search_on_object_returns_or_malformed :
  forall self w q mr c l t rq r d,
    fst (search self w q mr c l t) = [rq] ->
    http_get w rq = Responded r -> is_success r = true ->
    json r = Some (PyDict d) ->
    (exists rs, snd (search self w q mr c l t) = Return rs) \/
    (exists msg,
       snd (search self w q mr c l t)
       = Raise (Exn SearXNGResponseError msg)).
Proof.
  intros self w q mr c l t rq r d Hsent Hget Hok Hjson.
  rewrite (search_answered _ _ _ _ _ _ _ Hsent Hget Hok).
  unfold decode. rewrite Hjson. cbn [bind py_contains py_in].
  destruct (dict_get d "query"); cbn [bind negb];
    [| right; eexists; reflexivity].
  destruct (dict_get d "results"); cbn [bind negb];
    [| right; eexists; reflexivity].
  apply parse_results_outcome.
Qed.

Lemma search_on_object_returns_or_malformed_witness :
  (exists rs,
     snd (search (new_client default_config)
            (answering (PyDict [("query", PyInt 3); ("results", PyInt 4)]))
            (PyStr "rust") None PyNone PyNone PyNone) = Return rs) \/
  (exists msg,
     snd (search (new_client default_config)
            (answering (PyDict [("query", PyInt 3); ("results", PyInt 4)]))
            (PyStr "rust") None PyNone PyNone PyNone)
     = Raise (Exn SearXNGResponseError msg)).
Proof.
  exact (search_on_object_returns_or_malformed
           (new_client default_config)
           (answering (PyDict [("query", PyInt 3); ("results", PyInt 4)]))
           (PyStr "rust") None PyNone PyNone PyNone
           eq_refl eq_refl eq_refl eq_refl).
Defined.

(** X3. When the body of a 2xx response decodes to null, a boolean or
    a number, the test ["query" not in data] raises a TypeError that
    [search] does not catch: it leaves [search] as it is, not as a
    SearXNGResponseError. *)
Theorem search_on_scalar_body_raises_TypeError :
  forall self w q mr c l t rq r data,
    fst (search self w q mr c l t) = [rq] ->
    http_get w rq = Responded r -> is_success r = true ->
    json r = Some data ->
    py_iter data = None ->
    snd (search self w q mr c l t) = Raise (runtime w (NotContainer data)) /\
    exn_class (runtime w (NotContainer data)) = TypeError.
Proof.
  intros self w q mr c l t rq r data Hsent Hget Hok Hjson Hscalar.
  rewrite (search_answered _ _ _ _ _ _ _ Hsent Hget Hok).
  unfold decode. rewrite Hjson. cbn [bind].
  split; [| reflexivity].
  destruct data; try discriminate Hscalar; reflexivity.
Qed.

Lemma search_on_scalar_body_raises_TypeError_witness :
  snd (search (new_client default_config) (answering PyNone)
         (PyStr "rust") None PyNone PyNone PyNone)
  = Raise (runtime (answering PyNone) (NotContainer PyNone)).
Proof.
  exact (proj1 (search_on_scalar_body_raises_TypeError
                  (new_client default_config) (answering PyNone)
                  (PyStr "rust") None PyNone PyNone PyNone
                  eq_refl eq_refl eq_refl eq_refl eq_refl)).
Defined.

(** X4. [health_check] sends one request and never returns False: it
    returns True exactly when the response arrives with a 2xx status,
    and raises otherwise. *)
Theorem health_check_returns_True_or_raises :
  forall self w,
    fst (health_check self w) = [health_check_request self] /\
    snd (health_check self w) <> Return false /\
    (snd (health_check self w) = Return true <->
     exists r,
       http_get w (health_check_request self) = Responded r /\
       is_success r = true) /\
    (forall b, snd (health_check self w) = Return b -> b = true).
Proof.
  intros self w. unfold health_check; cbn [fst snd].
  assert (H : forall b,
             reraise (_ <- get_and_check w (health_check_request self) ;;
                      Return true) (health_check_handler self) = Return b ->
             b = true /\
             exists r,
               http_get w (health_check_request self) = Responded r /\
               is_success r = true).
  { intros b Hb. apply reraise_Return in Hb.
    apply bind_Return in Hb. destruct Hb as (r & Hr & Hb).
    injection Hb as <-. split; [reflexivity |].
    exists r. apply get_and_check_Return; assumption. }
  split; [reflexivity |].
  split; [intros Hf; apply H in Hf; destruct Hf as [Hf _]; discriminate Hf |].
  split.
  - split.
    + intros Ht. apply H in Ht. tauto.
    + intros (r & Hget & Hok).
      rewrite (get_and_check_success _ _ Hget Hok). reflexivity.
  - intros b Hb. apply H in Hb. tauto.
Qed.

Lemma outside_HTTPError_unhandled self e :
  outside_HTTPError e = true ->
  health_check_handler self e = e /\ search_handler self e = e.
Proof.
  unfold outside_HTTPError, health_check_handler, search_handler.
  destruct (exn_class e) as [ | | | | | | | | | c | nm]; auto.
  destruct c; simpl; intros H; try discriminate H; auto.
Qed.

(** X5. An exception of the transport that is not an
    [httpx.HTTPError] (an InvalidURL, or anything that is no httpx
    error at all) is caught by no clause: it leaves [health_check] and
    [search] unchanged. *)
Theorem foreign_transport_errors_propagate :
  forall self w e,
    outside_HTTPError e = true ->
    (http_get w (health_check_request self) = Failed e ->
     snd (health_check self w) = Raise e) /\
    (forall q mr c l t rq,
       fst (search self w q mr c l t) = [rq] ->
       http_get w rq = Failed e ->
       snd (search self w q mr c l t) = Raise e).
Proof.
  intros self w e He.
  destruct (outside_HTTPError_unhandled self e He) as [Hh Hs].
  split.
  - intros Hget. unfold health_check, get_and_check; cbn [snd].
    rewrite Hget. cbn [bind reraise]. now rewrite Hh.
  - intros q mr c l t rq Hsent Hget.
    rewrite (search_sent _ _ _ _ _ _ _ Hsent).
    unfold get_and_check. rewrite Hget. cbn [bind reraise]. now rewrite Hs.
Qed.

Lemma foreign_transport_errors_propagate_witness :
  let e := Exn (Httpx InvalidURL) "no host" in
  snd (health_check (new_client default_config) (constant_world (Failed e)))
    = Raise e /\
  snd (search (new_client default_config) (constant_world (Failed e))
         (PyStr "rust") None PyNone PyNone PyNone) = Raise e.
Proof.
  intros e.
  destruct (foreign_transport_errors_propagate
              (new_client default_config) (constant_world (Failed e)) e
              eq_refl) as [H1 H2].
  split; [exact (H1 eq_refl) |].
  exact (H2 (PyStr "rust") None PyNone PyNone PyNone _ eq_refl eq_refl).
Defined.

Lemma py_getitem_Return w v k x :
  py_getitem w v k = Return x ->
  exists d, v = PyDict d /\ dict_get d k = Some x.
Proof.
  unfold py_getitem. destruct v; try discriminate.
  destruct (dict_get d k) as [y |] eqn:E; [| discriminate].
  intros H; injection H as <-. exists d; auto.
Qed.

Lemma kept_length outcomes :
  (List.length (kept outcomes) <= List.length outcomes)%nat.
Proof.
  induction outcomes as [| [r |] rest IH]; simpl; lia.
Qed.

Lemma limit_results_length mr (l : list SearchResult) :
  (List.length (limit_results mr l) <= List.length l)%nat.
Proof.
  destruct (limit_results_prefix mr l) as (rest & H).
  rewrite H at 2. rewrite length_app. lia.
Qed.

Lemma accepted_results_Return w data accepted :
  accepted_results w data = Return accepted ->
  exists d raw items,
    data = PyDict d /\ dict_get d "results" = Some raw /\
    py_iter raw = Some items /\
    (List.length accepted <= List.length items)%nat.
Proof.
  unfold accepted_results. intros H.
  apply bind_Return in H. destruct H as (raw & Hraw & H).
  apply bind_Return in H. destruct H as (items & Hitems & H).
  destruct (py_iter raw) as [l |] eqn:Hiter; [| discriminate Hitems].
  injection Hitems as ->.
  apply py_getitem_Return in Hraw. destruct Hraw as (d & -> & Hraw).
  apply parse_loop_Return in H. destruct H as (outcomes & Hall & ->).
  exists d, raw, items. repeat split; auto.
  rewrite (Forall2_length Hall). apply kept_length.
Qed.

(** X6. The [query] of a returned result set is the one the backend
    sent back in its body, a JSON object whose [query] is a string; the
    query the caller passed is not looked at. *)
Theorem search_echoes_backend_query :
  forall self w q mr c l t trace rs,
    search self w q mr c l t = (trace, Return rs) ->
    exists rq r d,
      trace = [rq] /\ http_get w rq = Responded r /\
      json r = Some (PyDict d) /\
      dict_get d "query" = Some (PyStr (query rs)).
Proof.
  intros self w q mr c l t trace rs H.
  apply search_Return in H. apply search_call_Return in H.
  destruct H as (params & r & data & _ & -> & Hget & Hjson & H).
  apply parse_results_Return in H.
  destruct H as (accepted & q' & _ & Hq & ->).
  apply py_getitem_Return in Hq. destruct Hq as (d & -> & Hq).
  exists (search_request self params), r, d. auto.
Qed.

Lemma search_echoes_backend_query_witness :
  exists rq r d,
    [search_request (new_client default_config)
       [("q", PyStr "python"); ("format", PyStr "json")]] = [rq] /\
    http_get (answering example_body) rq = Responded r /\
    json r = Some (PyDict d) /\
    dict_get d "query" = Some (PyStr "rust programming").
Proof.
  exact (search_echoes_backend_query
           (new_client default_config) (answering example_body)
           (PyStr "python") None PyNone PyNone PyNone
           (rs := {| query := "rust programming"; results := example_results;
                     number_of_results := 2 |}) eq_refl).
Defined.

(** X7. [search] never returns more results than the backend's
    [results] holds elements. *)
Theorem search_returns_no_more_than_received :
  forall self w q mr c l t trace rs,
    search self w q mr c l t = (trace, Return rs) ->
    exists rq r d raw items,
      trace = [rq] /\ http_get w rq = Responded r /\
      json r = Some (PyDict d) /\
      dict_get d "results" = Some raw /\ py_iter raw = Some items /\
      (List.length (results rs) <= List.length items)%nat /\
      number_of_results rs <= Z.of_nat (List.length items).
Proof.
  intros self w q mr c l t trace rs H.
  destruct (search_result_set _ _ _ _ _ _ _ H)
    as (rq & r & data & accepted & Htrace & Hget & Hjson & Hacc & Hrs).
  apply accepted_results_Return in Hacc.
  destruct Hacc as (d & raw & items & -> & Hraw & Hiter & Hlen).
  exists rq, r, d, raw, items.
  pose proof (limit_results_length mr accepted) as Hcut.
  rewrite Hrs; cbn [results number_of_results].
  repeat split; auto; lia.
Qed.

Lemma search_returns_no_more_than_received_witness :
  exists rq r d raw items,
    [search_request (new_client default_config)
       [("q", PyStr "rust"); ("format", PyStr "json")]] = [rq] /\
    http_get (answering example_body) rq = Responded r /\
    json r = Some (PyDict d) /\
    dict_get d "results" = Some raw /\ py_iter raw = Some items /\
    (List.length example_results <= List.length items)%nat /\
    2 <= Z.of_nat (List.length items).
Proof.
  exact (search_returns_no_more_than_received
           (new_client default_config) (answering example_body)
           (PyStr "rust") None PyNone PyNone PyNone
           (rs := {| query := "rust programming"; results := example_results;
                     number_of_results := 2 |}) eq_refl).
Defined.

Lemma health_check_returns_True_or_raises_witness :
  snd (health_check (new_client default_config) (answering example_body))
  = Return true.
Proof.
  destruct (health_check_returns_True_or_raises
              (new_client default_config) (answering example_body))
    as (_ & _ & H & _).
  apply H. eexists. split; reflexivity.
Defined.

(* ================================================================== *)
(** ** Further properties of the tool handler *)
(* ================================================================== *)

Lemma gateway_from_config self :
  client_from_config self -> gateway_of self = new_client (config self).
Proof.
  unfold client_from_config, gateway_of.
  destruct (client self); auto.
Qed.

(** A call whose arguments pass the checks delegates to [search]. *)
Lemma handle_web_search_delegates self w arguments n :
  let q := dict_get_default arguments "query" PyNone in
  let mr := dict_get_default arguments "max_results" (PyInt 10) in
  let c := dict_get_default arguments "categories" PyNone in
  let l := dict_get_default arguments "language" PyNone in
  let t := dict_get_default arguments "time_range" PyNone in
  py_truthy q = true -> isinstance_int mr = Some n ->
  1 <= n <= max_results_limit (config self) ->
  let self' := {| config := config self;
                  client := Some (gateway_of self) |} in
  let call := search (gateway_of self) w q (Some n) c l t in
  _handle_web_search self w arguments
  = (self',
     Delegated q (Some n) c l t :: map Requested (fst call),
     reraise
       (rs <- snd call ;;
        Return [{| type := "text"; text := _format_search_results rs |}])
       (web_search_handler self')).
Proof.
  intros q mr c l t Hq Hmr Hn self' call.
  destruct (handle_web_search_cases self w arguments)
    as [([H | [H | (n' & H & Hn')]] & _) | (n' & _ & Hmr' & _ & Hrun)].
  - fold q in H. congruence.
  - fold mr in H.
    assert (E : is_positive_integer mr = true)
      by (apply is_positive_integer_spec; exists n; split; [exact Hmr | lia]).
    congruence.
  - fold mr in H. assert (n' = n) by congruence. lia.
  - fold mr in Hmr'. assert (n' = n) by congruence. subst n'. exact Hrun.
Qed.

Lemma call_tool_web_search self w arguments :
  call_tool self w "web_search" arguments = _handle_web_search self w arguments.
Proof.
  reflexivity.
Qed.

Lemma call_tool_split self w nm arguments :
  (exists msg, call_tool self w nm arguments
               = (self, [], Raise (Exn ValueError msg))) \/
  (exists n,
     py_truthy (dict_get_default arguments "query" PyNone) = true /\
     isinstance_int (dict_get_default arguments "max_results" (PyInt 10))
     = Some n /\
     1 <= n <= max_results_limit (config self) /\
     call_tool self w nm arguments = _handle_web_search self w arguments).
Proof.
  unfold call_tool.
  destruct (negb (nm =? "web_search")%string); [left; eexists; reflexivity |].
  destruct (handle_web_search_cases self w arguments)
    as [(_ & Hfail) | (n & Hq & Hmr & Hn & _)]; [left; exact Hfail |].
  right. exists n. auto.
Qed.

(** X8. A call never changes the configuration of the server and
    never swaps its client: the client it delegates to is the one the
    server held, or the one made from the configuration when it held
    none; the requests of the call and its outcome are those of
    [search] on that client, and that client is the one the server
    holds afterwards.  A call that is rejected leaves the server as it
    was. *)
Theorem call_tool_keeps_one_client :
  forall self w nm arguments,
    let run := call_tool self w nm arguments in
    let gateway := match client self with
                   | Some c => c
                   | None => new_client (config self)
                   end in
    config (server_of run) = config self /\
    gateway_of (server_of run) = gateway_of self /\
    gateway_of self = gateway /\
    (client_from_config self -> client_from_config (server_of run)) /\
    (events_of run = [] -> server_of run = self) /\
    (events_of run <> [] ->
     client (server_of run) = Some gateway /\
     exists n,
       let found :=
         search gateway w
           (dict_get_default arguments "query" PyNone) (Some n)
           (dict_get_default arguments "categories" PyNone)
           (dict_get_default arguments "language" PyNone)
           (dict_get_default arguments "time_range" PyNone) in
       events_of run
       = Delegated (dict_get_default arguments "query" PyNone) (Some n)
           (dict_get_default arguments "categories" PyNone)
           (dict_get_default arguments "language" PyNone)
           (dict_get_default arguments "time_range" PyNone)
           :: map Requested (fst found) /\
       outcome_of run
       = reraise
           (rs <- snd found ;;
            Return [{| type := "text"; text := _format_search_results rs |}])
           (web_search_handler (server_of run))).
Proof.
  intros self w nm arguments run gateway. subst run.
  change gateway with (gateway_of self). clear gateway.
  destruct (call_tool_split self w nm arguments)
    as [(msg & ->) | (n & Hq & Hmr & Hn & ->)].
  - unfold server_of, events_of; cbn [fst snd].
    split; [reflexivity |]. split; [reflexivity |]. split; [reflexivity |].
    split; [auto |]. split; [reflexivity |].
    intros Hev. exfalso. apply Hev. reflexivity.
  - rewrite (@handle_web_search_delegates self w arguments n Hq Hmr Hn).
    unfold server_of, events_of, outcome_of; cbn [fst snd config client].
    split; [reflexivity |]. split; [reflexivity |]. split; [reflexivity |].
    split.
    { intros Hinv. unfold client_from_config; cbn [client config].
      apply gateway_from_config; assumption. }
    split; [intros H; discriminate H |].
    intros _. split; [reflexivity |].
    exists n. split; reflexivity.
Qed.

Lemma call_tool_keeps_one_client_witness :
  let run :=
    call_tool (new_server slashed_config) (answering example_body)
      "web_search" [("query", PyStr "rust")] in
  client (server_of run) = Some (new_client slashed_config) /\
  client_from_config (server_of run) /\
  exists n,
    events_of run
    = Delegated (PyStr "rust") (Some n) PyNone PyNone PyNone
        :: map Requested
             (fst (search (new_client slashed_config) (answering example_body)
                     (PyStr "rust") (Some n) PyNone PyNone PyNone)).
Proof.
  intros run.
  destruct (call_tool_keeps_one_client
              (new_server slashed_config) (answering example_body)
              "web_search" [("query", PyStr "rust")])
    as (_ & _ & _ & Hinv & _ & Hdel).
  assert (Hev : events_of run <> []) by discriminate.
  destruct (Hdel Hev) as (Hclient & n & Hevents & _).
  split; [exact Hclient |].
  split; [apply Hinv; exact I |].
  exists n. exact Hevents.
Defined.

Lemma search_within_limit self w q n c l t :
  n <= limit self ->
  search self w q (Some n) c l t = search_call self w q (Some n) c l t.
Proof.
  intros Hn. unfold search.
  destruct (limit self <? n) eqn:E; [lia | reflexivity].
Qed.

Lemma categories_typed_builds w q c l t :
  categories_typed c -> exists params, build_params w q c l t = Return params.
Proof.
  intros [-> | (names & ->)].
  - exact (build_params_typed w q None l t).
  - exact (build_params_typed w q (Some names) l t).
Qed.

(** What a call does when its arguments pass the checks, the server's
    client is the one of its configuration and [categories] has its
    advertised type. *)
Lemma accepted_call_runs self w arguments n :
  let q := dict_get_default arguments "query" PyNone in
  let mr := dict_get_default arguments "max_results" (PyInt 10) in
  let c := dict_get_default arguments "categories" PyNone in
  let l := dict_get_default arguments "language" PyNone in
  let t := dict_get_default arguments "time_range" PyNone in
  client_from_config self ->
  py_truthy q = true -> isinstance_int mr = Some n ->
  1 <= n <= max_results_limit (config self) ->
  categories_typed c ->
  exists params,
    build_params w q c l t = Return params /\
    let gateway := new_client (config self) in
    let self' := {| config := config self; client := Some gateway |} in
    let rq := search_request gateway params in
    call_tool self w "web_search" arguments
    = (self',
       [Delegated q (Some n) c l t; Requested rq],
       reraise
         (rs <- (r <- reraise (get_and_check w rq) (search_handler gateway) ;;
                 data <- decode w r ;;
                 parse_results w (Some n) data) ;;
          Return [{| type := "text"; text := _format_search_results rs |}])
         (web_search_handler self')).
Proof.
  intros q mr c l t Hinv Hq Hmr Hn Hc.
  destruct (@categories_typed_builds w q c l t Hc) as (params & Hp).
  exists params. split; [exact Hp |].
  rewrite call_tool_web_search.
  rewrite (@handle_web_search_delegates self w arguments n Hq Hmr Hn).
  rewrite (@gateway_from_config self Hinv).
  fold q c l t.
  rewrite search_within_limit by (cbn [limit new_client]; lia).
  unfold search_call. rewrite Hp. reflexivity.
Qed.

(** X9. With a server whose client is the one of its configuration,
    a call whose [query] is true, whose [max_results] is an integer
    from 1 to the limit and whose [categories] is absent or a list of
    strings always reaches the backend, once: the check of [search]
    itself cannot fail after the handler's, and exactly one request
    goes out. *)
Theorem accepted_call_sends_one_request :
  forall self w arguments n,
    client_from_config self ->
    py_truthy (dict_get_default arguments "query" PyNone) = true ->
    isinstance_int (dict_get_default arguments "max_results" (PyInt 10))
    = Some n ->
    1 <= n <= max_results_limit (config self) ->
    categories_typed (dict_get_default arguments "categories" PyNone) ->
    exists rq,
      events_of (call_tool self w "web_search" arguments)
      = [Delegated (dict_get_default arguments "query" PyNone) (Some n)
           (dict_get_default arguments "categories" PyNone)
           (dict_get_default arguments "language" PyNone)
           (dict_get_default arguments "time_range" PyNone);
         Requested rq] /\
      req_url rq
      = (rstrip_slash (searxng_base_url (config self)) ++ "/search")%string /\
      dict_get (req_params rq) "q"
      = Some (dict_get_default arguments "query" PyNone).
Proof.
  intros self w arguments n Hinv Hq Hmr Hn Hc.
  destruct (@accepted_call_runs self w arguments n Hinv Hq Hmr Hn Hc)
    as (params & Hp & Hrun).
  cbv zeta in Hrun. rewrite Hrun.
  exists (search_request (new_client (config self)) params).
  split; [reflexivity |].
  split; [reflexivity |].
  apply build_params_Return in Hp. destruct Hp as (cs & _ & ->).
  reflexivity.
Qed.

Lemma accepted_call_sends_one_request_witness :
  exists rq,
    events_of (call_tool (new_server default_config) (answering example_body)
                 "web_search"
                 [("query", PyStr "rust"); ("max_results", PyInt 50)])
    = [Delegated (PyStr "rust") (Some 50) PyNone PyNone PyNone; Requested rq] /\
    req_url rq = "http://localhost:8080/search"%string /\
    dict_get (req_params rq) "q" = Some (PyStr "rust").
Proof.
  apply (accepted_call_sends_one_request
           (new_server default_config) (answering example_body)
           [("query", PyStr "rust"); ("max_results", PyInt 50)]
           (n := 50)).
  - exact I.
  - reflexivity.
  - reflexivity.
  - split; intros H; discriminate H.
  - left; reflexivity.
Defined.

(** X10. A call that returns, returns exactly one content item, of
    type [text], holding the formatted result set that [search]
    returned on the server's client for the one request that went out;
    the results of that set are the first [max_results] (10 when the
    argument is absent) of the elements accepted from the body of the
    response to that request, [max_results] is never more than the
    configured limit, and [number_of_results] is their number. *)
Theorem returned_call_holds_one_text :
  forall self w nm arguments self' events contents,
    call_tool self w nm arguments = (self', events, Return contents) ->
    exists n rs rq r data accepted,
      isinstance_int (dict_get_default arguments "max_results" (PyInt 10))
      = Some n /\
      1 <= n <= max_results_limit (config self) /\
      search (match client self with
              | Some c => c
              | None => new_client (config self)
              end) w
        (dict_get_default arguments "query" PyNone) (Some n)
        (dict_get_default arguments "categories" PyNone)
        (dict_get_default arguments "language" PyNone)
        (dict_get_default arguments "time_range" PyNone)
      = ([rq], Return rs) /\
      http_get w rq = Responded r /\ json r = Some data /\
      accepted_results w data = Return accepted /\
      results rs = firstn (Z.to_nat n) accepted /\
      contents = [{| type := "text"; text := _format_search_results rs |}] /\
      number_of_results rs = Z.of_nat (List.length (results rs)) /\
      Z.of_nat (List.length (results rs)) <= n /\
      events
      = [Delegated (dict_get_default arguments "query" PyNone) (Some n)
           (dict_get_default arguments "categories" PyNone)
           (dict_get_default arguments "language" PyNone)
           (dict_get_default arguments "time_range" PyNone);
         Requested rq].
Proof.
  intros self w nm arguments self' events contents H.
  destruct (call_tool_split self w nm arguments)
    as [(msg & Hfail) | (n & Hq & Hmr & Hn & Hrun)].
  { rewrite Hfail in H. discriminate H. }
  rewrite Hrun in H.
  rewrite (@handle_web_search_delegates self w arguments n Hq Hmr Hn) in H.
  change (match client self with
          | Some c => c
          | None => new_client (config self)
          end) with (gateway_of self).
  remember (search (gateway_of self) w
              (dict_get_default arguments "query" PyNone) (Some n)
              (dict_get_default arguments "categories" PyNone)
              (dict_get_default arguments "language" PyNone)
              (dict_get_default arguments "time_range" PyNone))
    as call eqn:Hcall.
  destruct call as [trace found]. cbn [fst snd] in H.
  injection H as _ <- Hout.
  apply reraise_Return in Hout.
  apply bind_Return in Hout. destruct Hout as (rs & -> & Hout).
  injection Hout as <-.
  symmetry in Hcall.
  destruct (search_result_set _ _ _ _ _ _ _ Hcall)
    as (rq & r & data & accepted & -> & Hget & Hjson & Hacc & Hrs).
  exists n, rs, rq, r, data, accepted.
  destruct (limit_results_positive accepted (n := n)) as [Hcut Hlen]; [lia |].
  assert (Hres : results rs = limit_results (Some n) accepted)
    by (rewrite Hrs; reflexivity).
  assert (Hnum : number_of_results rs
                 = Z.of_nat (List.length (limit_results (Some n) accepted)))
    by (rewrite Hrs; reflexivity).
  rewrite Hnum, Hres, Hcut in *.
  repeat split; auto; lia.
Qed.

Lemma returned_call_holds_one_text_witness :
  exists rs rq,
    search (new_client default_config) (answering example_body)
      (PyStr "rust") (Some 1) PyNone PyNone PyNone
    = ([rq], Return rs) /\
    outcome_of
      (call_tool (new_server default_config) (answering example_body)
         "web_search" [("query", PyStr "rust"); ("max_results", PyInt 1)])
    = Return [{| type := "text"; text := _format_search_results rs |}] /\
    Z.of_nat (List.length (results rs)) <= 1.
Proof.
  destruct (returned_call_holds_one_text
              (new_server default_config) (answering example_body)
              "web_search" [("query", PyStr "rust"); ("max_results", PyInt 1)]
              eq_refl)
    as (n & rs & rq & r & data & accepted
        & Hn & _ & Hsearch & _ & _ & _ & _ & Hcontents & _ & Hlen & _).
  injection Hn as <-.
  exists rs, rq.
  split; [exact Hsearch |].
  split; [exact (f_equal Return Hcontents) | exact Hlen].
Defined.

(** X11. When the configured limit is below 10, a call that gives a
    query and no [max_results] is always rejected: the default of 10 is
    checked against the limit like a value the caller gave. *)
Theorem default_max_results_can_exceed_limit :
  forall self w arguments,
    max_results_limit (config self) < 10 ->
    py_truthy (dict_get_default arguments "query" PyNone) = true ->
    dict_get arguments "max_results" = None ->
    call_tool self w "web_search" arguments
    = (self, [],
       Raise (Exn ValueError
                  ("'max_results' exceeds limit of "
                     ++ str_of_int (max_results_limit (config self))))).
Proof.
  intros self w arguments Hlim Hq Hmr.
  rewrite call_tool_web_search. unfold _handle_web_search.
  rewrite Hq. cbn [negb].
  unfold dict_get_default at 1. rewrite Hmr. cbn [isinstance_int].
  change (10 <? 1) with false. cbv iota.
  destruct (max_results_limit (config self) <? 10) eqn:E; [reflexivity | lia].
Qed.

Lemma default_max_results_can_exceed_limit_witness :
  call_tool (new_server tight_config) (answering example_body)
    "web_search" [("query", PyStr "rust")]
  = (new_server tight_config, [],
     Raise (Exn ValueError "'max_results' exceeds limit of 5")).
Proof.
  apply (default_max_results_can_exceed_limit
           (new_server tight_config) (answering example_body)
           [("query", PyStr "rust")]).
  - reflexivity.
  - reflexivity.
  - reflexivity.
Defined.

(** X12. The bounds [list_tools] advertises for [max_results] are the
    bounds the handler enforces: with a query given, a call of the
    advertised tool with an integer [max_results] is delegated exactly
    when the integer lies between the advertised minimum and
    maximum. *)
Theorem advertised_bounds_are_enforced :
  forall self w arguments n tool,
    In tool (list_tools self) ->
    py_truthy (dict_get_default arguments "query" PyNone) = true ->
    dict_get arguments "max_results" = Some (PyInt n) ->
    exists lo hi,
      schema_property (inputSchema tool) "max_results" "minimum"
      = Some (PyInt lo) /\
      schema_property (inputSchema tool) "max_results" "maximum"
      = Some (PyInt hi) /\
      (lo <= n <= hi <->
       events_of (call_tool self w (name tool) arguments) <> []).
Proof.
  intros self w arguments n tool [<- | []] Hq Hmr.
  exists 1, (max_results_limit (config self)).
  split; [reflexivity |]. split; [reflexivity |].
  cbn [name list_tools].
  assert (Hint : isinstance_int
                   (dict_get_default arguments "max_results" (PyInt 10))
                 = Some n)
    by (unfold dict_get_default; rewrite Hmr; reflexivity).
  split.
  - intros Hn. rewrite call_tool_web_search.
    rewrite (@handle_web_search_delegates self w arguments n Hq Hint Hn).
    unfold events_of; cbn [fst snd]. discriminate.
  - intros Hev.
    destruct (call_tool_split self w "web_search" arguments)
      as [(msg & Hfail) | (n' & _ & Hmr' & Hn' & _)].
    + rewrite Hfail in Hev. exfalso. apply Hev. reflexivity.
    + assert (n' = n) by congruence. subst n'. exact Hn'.
Qed.

Lemma advertised_bounds_are_enforced_witness :
  1 <= 6 <= 5 <->
  events_of
    (call_tool (new_server tight_config) (answering example_body)
       "web_search" [("query", PyStr "rust"); ("max_results", PyInt 6)]) <> [].
Proof.
  destruct (@advertised_bounds_are_enforced
              (new_server tight_config) (answering example_body)
              [("query", PyStr "rust"); ("max_results", PyInt 6)] 6 _
              (or_introl eq_refl) eq_refl eq_refl)
    as (lo & hi & Hlo & Hhi & Hiff).
  injection Hlo as <-. injection Hhi as <-.
  exact Hiff.
Defined.

Lemma dict_get_app_fresh (d : pydict) (k k' : string) (v dflt : pyval) :
  dict_get_default (d ++ [(k, v)])%list k' dflt
  = match dict_get d k' with
    | Some x => x
    | None => if String.eqb k k' then v else dflt
    end.
Proof.
  unfold dict_get_default.
  induction d as [| [k0 v0] d IH]; simpl.
  - destruct (String.eqb k k'); reflexivity.
  - destruct (String.eqb k0 k'); [reflexivity | exact IH].
Qed.

(** X13. Leaving [max_results] out is the same as passing the default
    [list_tools] advertises: the two calls do the same to the server,
    delegate the same and end the same. *)
Theorem omitted_max_results_is_advertised_default :
  forall self w arguments tool,
    In tool (list_tools self) ->
    dict_get arguments "max_results" = None ->
    exists default,
      schema_property (inputSchema tool) "max_results" "default"
      = Some default /\
      call_tool self w (name tool) arguments
      = call_tool self w (name tool)
          (arguments ++ [("max_results"%string, default)])%list.
Proof.
  intros self w arguments tool [<- | []] Hmr.
  exists (PyInt 10). split; [reflexivity |].
  cbn [name list_tools]. rewrite !call_tool_web_search.
  unfold _handle_web_search.
  rewrite !dict_get_app_fresh. rewrite Hmr.
  unfold dict_get_default. rewrite Hmr.
  cbn [String.eqb Ascii.eqb Bool.eqb].
  reflexivity.
Qed.

Lemma omitted_max_results_is_advertised_default_witness :
  call_tool (new_server default_config) (answering example_body)
    "web_search" [("query", PyStr "rust")]
  = call_tool (new_server default_config) (answering example_body)
      "web_search" [("query", PyStr "rust"); ("max_results", PyInt 10)].
Proof.
  destruct (@omitted_max_results_is_advertised_default
              (new_server default_config) (answering example_body)
              [("query", PyStr "rust")] _ (or_introl eq_refl) eq_refl)
    as (default & Hd & Hcall).
  injection Hd as <-. exact Hcall.
Defined.

Lemma parse_loop_all_skipped w items : forall acc,
  Forall (fun element => is_object element /\
                         has_required_fields element = false) items ->
  parse_loop w items acc = Return acc.
Proof.
  induction items as [| element items IH]; intros acc H; simpl.
  - reflexivity.
  - inversion H as [| ? ? [(d & ->) Hlack] Hrest]; subst.
    rewrite (parse_result_skips_object w _ Hlack). cbn [bind].
    apply IH; assumption.
Qed.

(** X14. When the backend answers an accepted call with a result
    array in which every element lacks a required field (an empty
    array among them), the caller gets the text for no results, with
    the query the backend sent back. *)
Theorem incomplete_results_read_as_no_results :
  forall self w arguments n r d echoed items,
    client_from_config self ->
    py_truthy (dict_get_default arguments "query" PyNone) = true ->
    isinstance_int (dict_get_default arguments "max_results" (PyInt 10))
    = Some n ->
    1 <= n <= max_results_limit (config self) ->
    categories_typed (dict_get_default arguments "categories" PyNone) ->
    (forall rq, http_get w rq = Responded r) ->
    is_success r = true ->
    json r = Some (PyDict d) ->
    dict_get d "query" = Some (PyStr echoed) ->
    dict_get d "results" = Some (PyList items) ->
    Forall (fun element => is_object element /\
                           has_required_fields element = false) items ->
    outcome_of (call_tool self w "web_search" arguments)
    = Return [{| type := "text";
                 text := ("No results found for query: " ++ echoed)%string |}].
Proof.
  intros self w arguments n r d echoed items
         Hinv Hq Hmr Hn Hc Hget Hok Hjson Hquery Hresults Hall.
  destruct (@accepted_call_runs self w arguments n Hinv Hq Hmr Hn Hc)
    as (params & _ & Hrun).
  cbv zeta in Hrun. rewrite Hrun. unfold outcome_of; cbn [snd].
  rewrite (get_and_check_success _ _ (Hget _) Hok). cbn [reraise bind].
  unfold decode. rewrite Hjson. cbn [bind py_contains py_in].
  rewrite Hquery, Hresults. cbn [bind negb].
  unfold parse_results, accepted_results. cbn [py_getitem].
  rewrite Hquery, Hresults. cbn [bind py_iter].
  rewrite (parse_loop_all_skipped w [] Hall). cbn [bind].
  assert (Hcut : limit_results (Some n) [] = []).
  { unfold limit_results. destruct (0 <? n); [apply firstn_nil | reflexivity]. }
  rewrite Hcut. reflexivity.
Qed.

Lemma incomplete_results_read_as_no_results_witness :
  outcome_of (call_tool (new_server default_config) (answering sparse_body)
                "web_search" [("query", PyStr "rust language")])
  = Return [{| type := "text";
               text := "No results found for query: rust"%string |}].
Proof.
  eapply (@incomplete_results_read_as_no_results
            (new_server default_config) (answering sparse_body)
            [("query", PyStr "rust language")] 10).
  - exact I.
  - reflexivity.
  - reflexivity.
  - split; intros H; discriminate H.
  - left; reflexivity.
  - intros rq. reflexivity.
  - reflexivity.
  - reflexivity.
  - reflexivity.
  - reflexivity.
  - repeat constructor; eexists; reflexivity.
Defined.

(** X15. When the backend answers an accepted call with a status
    that is not 2xx, the caller is told that the connection failed and
    to make sure SearXNG is running at the configured address: the
    status error goes the way of a failed connection. *)
Theorem bad_status_is_reported_as_failed_connection :
  forall self w arguments n r,
    client_from_config self ->
    py_truthy (dict_get_default arguments "query" PyNone) = true ->
    isinstance_int (dict_get_default arguments "max_results" (PyInt 10))
    = Some n ->
    1 <= n <= max_results_limit (config self) ->
    categories_typed (dict_get_default arguments "categories" PyNone) ->
    (forall rq, http_get w rq = Responded r) ->
    is_success r = false ->
    outcome_of (call_tool self w "web_search" arguments)
    = Raise
        (Exn ValueError
           ("Failed to connect to SearXNG: "
              ++ ("HTTP error while searching: "
                    ++ error_text w
                         (StatusError (status_code r)
                            (rstrip_slash (searxng_base_url (config self))
                               ++ "/search")))
              ++ newline ++ newline
              ++ "Please ensure SearXNG is running at "
              ++ searxng_base_url (config self))).
Proof.
  intros self w arguments n r Hinv Hq Hmr Hn Hc Hget Hbad.
  destruct (@accepted_call_runs self w arguments n Hinv Hq Hmr Hn Hc)
    as (params & _ & Hrun).
  cbv zeta in Hrun. rewrite Hrun. unfold outcome_of; cbn [snd].
  assert (Hst : status_code r < 200 \/ 299 < status_code r).
  { unfold is_success in Hbad. apply andb_false_iff in Hbad.
    destruct Hbad as [H | H]; [left | right]; lia. }
  rewrite (get_and_check_bad_status _ _ (Hget _) Hst).
  reflexivity.
Qed.

Lemma bad_status_is_reported_as_failed_connection_witness :
  let w := constant_world (Responded {| status_code := 403; json := None |}) in
  outcome_of (call_tool (new_server default_config) w
                "web_search" [("query", PyStr "rust")])
  = Raise
      (Exn ValueError
         ("Failed to connect to SearXNG: "
            ++ ("HTTP error while searching: " ++ "runtime error")
            ++ newline ++ newline
            ++ "Please ensure SearXNG is running at "
            ++ "http://localhost:8080")).
Proof.
  intros w.
  apply (@bad_status_is_reported_as_failed_connection
           (new_server default_config) w [("query", PyStr "rust")] 10
           {| status_code := 403; json := None |}).
  - exact I.
  - reflexivity.
  - reflexivity.
  - split; intros H; discriminate H.
  - left; reflexivity.
  - intros rq. reflexivity.
  - reflexivity.
Defined.

(* ================================================================== *)
(** ** Further properties of the text and of the base URL *)
(* ================================================================== *)

Lemma length_append (a b : string) :
  String.length (a ++ b) = (String.length a + String.length b)%nat.
Proof.
  induction a as [| x a IH]; simpl; [reflexivity | now rewrite IH].
Qed.

Lemma str_take_length (n : nat) (s : string) :
  String.length (str_take n s) = Nat.min n (String.length s).
Proof.
  revert n. induction s as [| c s IH]; intros [| n]; simpl; auto.
Qed.

Lemma str_take_prefix (n : nat) (s : string) :
  exists rest, s = (str_take n s ++ rest)%string.
Proof.
  revert n. induction s as [| c s IH]; intros [| n]; simpl.
  - exists ""%string; reflexivity.
  - exists ""%string; reflexivity.
  - eexists; reflexivity.
  - destruct (IH n) as (rest & H). exists rest. now rewrite <- H.
Qed.

(** X16. The text of a content line is never longer than 303
    characters.  It is the content itself when that has at most 300
    characters; otherwise it is the first 300 characters of the content
    followed by three dots. *)
Theorem content_text_is_bounded :
  forall c,
    (String.length (content_text c) <= 303)%nat /\
    ((String.length c <= 300)%nat -> content_text c = c) /\
    ((300 < String.length c)%nat ->
     String.length (content_text c) = 303%nat /\
     exists shown rest,
       String.length shown = 300%nat /\
       c = (shown ++ rest)%string /\
       content_text c = (shown ++ "...")%string).
Proof.
  intros c. unfold content_text.
  pose proof (str_take_length 300 c) as Hlen.
  destruct (Nat.ltb_spec 300 (String.length c)) as [H | H].
  - rewrite length_append. cbn [String.length].
    rewrite Nat.min_l in Hlen by lia.
    split; [lia |]. split; [lia |]. intros _.
    split; [lia |].
    destruct (str_take_prefix 300 c) as (rest & Hrest).
    exists (str_take 300 c), rest. auto.
  - rewrite Nat.min_r in Hlen by lia.
    split; [lia |]. split; [| lia].
    intros _. apply str_take_all; assumption.
Qed.

Lemma content_text_is_bounded_witness :
  content_text "A systems language" = "A systems language"%string.
Proof.
  apply (proj1 (proj2 (content_text_is_bounded "A systems language"))).
  apply Nat.leb_le. reflexivity.
Defined.

Lemma rstrip_slash_slashes (k : nat) : rstrip_slash (slashes k) = ""%string.
Proof.
  induction k as [| k IH]; simpl; [reflexivity | now rewrite IH].
Qed.

Lemma rstrip_slash_append_slashes (s : string) (k : nat) :
  rstrip_slash (s ++ slashes k) = rstrip_slash s.
Proof.
  induction s as [| c s IH]; simpl.
  - apply rstrip_slash_slashes.
  - now rewrite IH.
Qed.

(** X17. Trailing slashes of the base URL do not matter: two
    configurations that differ only in them give the same client, and
    so the same requests.  Stripping is idempotent, and a base URL
    that ends with no slash is kept as it is. *)
Theorem trailing_slashes_do_not_matter :
  forall c1 c2 k,
    searxng_base_url c2 = (searxng_base_url c1 ++ slashes k)%string ->
    searxng_timeout c2 = searxng_timeout c1 ->
    max_results_limit c2 = max_results_limit c1 ->
    new_client c2 = new_client c1 /\
    rstrip_slash (base_url (new_client c1)) = base_url (new_client c1) /\
    ((forall r, searxng_base_url c1 <> (r ++ "/")%string) ->
     base_url (new_client c2) = searxng_base_url c1).
Proof.
  intros c1 c2 k Hurl Ht Hl.
  assert (Hidem : forall s, rstrip_slash (rstrip_slash s) = rstrip_slash s).
  { intros s. destruct (rstrip_slash_strips_slashes s) as (j & Hj).
    rewrite Hj at 2. now rewrite rstrip_slash_append_slashes. }
  split; [| split].
  - unfold new_client. rewrite Hurl, Ht, Hl, rstrip_slash_append_slashes.
    reflexivity.
  - cbn [new_client base_url]. apply Hidem.
  - intros Hno. cbn [new_client base_url].
    rewrite Hurl, rstrip_slash_append_slashes.
    destruct (rstrip_slash_strips_slashes (searxng_base_url c1)) as (j & Hj).
    destruct j as [| j].
    + simpl in Hj. rewrite append_empty in Hj. now symmetry.
    + exfalso.
      assert (Hend : forall m, exists r, slashes (S m) = (r ++ "/")%string).
      { induction m as [| m (r & IHm)].
        - exists ""%string; reflexivity.
        - exists (String "/"%char r). simpl. simpl in IHm. now rewrite IHm. }
      destruct (Hend j) as (r & Hr).
      apply (Hno (rstrip_slash (searxng_base_url c1) ++ r)%string).
      rewrite append_assoc, <- Hr. exact Hj.
Qed.

Lemma trailing_slashes_do_not_matter_witness :
  new_client
    {| searxng_base_url := "http://searx.local///";
       searxng_timeout := 10; log_level := "DEBUG";
       max_results_limit := 50 |}
  = new_client slashed_config.
Proof.
  apply (proj1 (@trailing_slashes_do_not_matter
                  slashed_config
                  {| searxng_base_url := "http://searx.local///";
                     searxng_timeout := 10; log_level := "DEBUG";
                     max_results_limit := 50 |}
                  2 eq_refl eq_refl eq_refl)).
Defined.

(* ================================================================== *)
(** ** What the caller is told *)
(* ================================================================== *)

(** X18. What the caller of an accepted call reads when the backend
    cannot be used: after a timeout of the transport, the configured
    number of seconds; after a failed connection, the stripped base URL
    of the client and then the base URL of the configuration; after a
    body that is no JSON, that the response was invalid. *)
Theorem caller_messages_for_backend_failures :
  forall self w arguments n,
    client_from_config self ->
    py_truthy (dict_get_default arguments "query" PyNone) = true ->
    isinstance_int (dict_get_default arguments "max_results" (PyInt 10))
    = Some n ->
    1 <= n <= max_results_limit (config self) ->
    categories_typed (dict_get_default arguments "categories" PyNone) ->
    (forall c m,
       (forall rq, http_get w rq = Failed (Exn (Httpx c) m)) ->
       is_TimeoutException c = true ->
       outcome_of (call_tool self w "web_search" arguments)
       = Raise (Exn ValueError
                    ("Search request timed out: "
                       ++ "Search request timed out after "
                       ++ str_of_int (searxng_timeout (config self)) ++ "s"))) /\
    (forall m,
       (forall rq, http_get w rq = Failed (Exn (Httpx ConnectError) m)) ->
       outcome_of (call_tool self w "web_search" arguments)
       = Raise (Exn ValueError
                    ("Failed to connect to SearXNG: "
                       ++ ("Unable to connect to SearXNG at "
                             ++ rstrip_slash (searxng_base_url (config self))
                             ++ ". " ++ "Please ensure SearXNG is running.")
                       ++ newline ++ newline
                       ++ "Please ensure SearXNG is running at "
                       ++ searxng_base_url (config self)))) /\
    (forall r,
       (forall rq, http_get w rq = Responded r) ->
       is_success r = true -> json r = None ->
       outcome_of (call_tool self w "web_search" arguments)
       = Raise (Exn ValueError
                    ("Invalid response from SearXNG: "
                       ++ "SearXNG returned malformed JSON response"))).
Proof.
  intros self w arguments n Hinv Hq Hmr Hn Hc.
  destruct (@accepted_call_runs self w arguments n Hinv Hq Hmr Hn Hc)
    as (params & _ & Hrun).
  cbv zeta in Hrun. rewrite Hrun. unfold outcome_of; cbn [snd].
  split; [| split].
  - intros c m Hget Hto. unfold get_and_check. rewrite Hget.
    cbn [reraise bind]. unfold search_handler. cbn [exn_class].
    rewrite Hto. reflexivity.
  - intros m Hget. unfold get_and_check. rewrite Hget. reflexivity.
  - intros r Hget Hok Hjson.
    rewrite (get_and_check_success _ _ (Hget _) Hok). cbn [reraise bind].
    unfold decode. rewrite Hjson. reflexivity.
Qed.

Lemma caller_messages_for_backend_failures_witness :
  outcome_of
    (call_tool (new_server slashed_config)
       (constant_world (Failed (Exn (Httpx ConnectTimeout) "slow")))
       "web_search" [("query", PyStr "rust")])
  = Raise (Exn ValueError
               "Search request timed out: Search request timed out after 10s").
Proof.
  destruct (@caller_messages_for_backend_failures
              (new_server slashed_config)
              (constant_world (Failed (Exn (Httpx ConnectTimeout) "slow")))
              [("query", PyStr "rust")] 10)
    as (H & _ & _).
  - exact I.
  - reflexivity.
  - reflexivity.
  - split; intros H; discriminate H.
  - left; reflexivity.
  - exact (H ConnectTimeout "slow"%string (fun _ => eq_refl) eq_refl).
Defined.

(** X19. Only the tool that [list_tools] advertises can be called:
    a call under any other name is rejected with a message that gives
    the name, whatever its arguments, and a call that delegates was
    made under an advertised name. *)
Theorem only_the_advertised_tool_is_served :
  forall self w nm arguments,
    (~ In nm (map name (list_tools self)) ->
     call_tool self w nm arguments
     = (self, [], Raise (Exn ValueError ("Unknown tool: " ++ nm)))) /\
    (events_of (call_tool self w nm arguments) <> [] ->
     In nm (map name (list_tools self))).
Proof.
  intros self w nm arguments.
  cbn [list_tools map name In].
  destruct (String.eqb_spec nm "web_search") as [-> | Hne].
  - split; [intros H; exfalso; apply H; left; reflexivity |].
    intros _. left; reflexivity.
  - assert (E : call_tool self w nm arguments
                = (self, [], Raise (Exn ValueError ("Unknown tool: " ++ nm)))).
    { unfold call_tool.
      destruct (String.eqb_spec nm "web_search") as [Heq | _];
        [contradiction | reflexivity]. }
    split; [intros _; exact E |].
    rewrite E. intros H. exfalso. apply H. reflexivity.
Qed.

Lemma only_the_advertised_tool_is_served_witness :
  call_tool (new_server default_config) (answering example_body)
    "image_search" [("query", PyStr "rust")]
  = (new_server default_config, [],
     Raise (Exn ValueError "Unknown tool: image_search")).
Proof.
  apply (proj1 (only_the_advertised_tool_is_served
                  (new_server default_config) (answering example_body)
                  "image_search" [("query", PyStr "rust")])).
  intros [H | []]. discriminate H.
Defined.
